(** * bw2op-totp: the Bitwarden to 1Password TOTP patcher

    A shallow embedding of [bw2op_totp.py] and the properties of its
    matcher, its otpauth URL constructor and its run loop.

    Conventions of the embedding.
    - A Python [str] is a [string]; a character is a code point below 256
      (the Latin-1 range), so [str.lower], [str.strip] and
      [urllib.parse.quote] are written out for that range.
    - A JSON field that holds a string, [null], or is absent is an
      [option string]; [None] is both Python's [None] and the missing key,
      which [dict.get] does not tell apart.
    - Whatever the script does to the outside (printing, reading the
      confirmation line, spawning [op]) goes through the monad [Run.M],
      which carries the console output and the log of spawned commands and
      can raise a Python exception. *)

From Stdlib Require Import String Ascii List Bool Arith Lia DecimalString.
From stdpp Require Import base strings gmap list.

Set Default Proof Using "Type".

(** ** Python strings *)

Module Str.

Definition code (c : ascii) : nat := nat_of_ascii c.

(** [str.isspace] on one character: TAB..CR, FS..US, SPACE, NEL, NBSP. *)
Definition isspace (c : ascii) : bool :=
  let n := code c in
  ((9 <=? n) && (n <=? 13)) || ((28 <=? n) && (n <=? 32))
  || (n =? 133) || (n =? 160).

Fixpoint lstrip (s : string) : string :=
  match s with
  | EmptyString => EmptyString
  | String c s' => if isspace c then lstrip s' else s
  end.

Definition is_empty (s : string) : bool :=
  match s with EmptyString => true | String _ _ => false end.

Fixpoint rstrip (s : string) : string :=
  match s with
  | EmptyString => EmptyString
  | String c s' =>
      let r := rstrip s' in
      if isspace c && is_empty r then EmptyString else String c r
  end.

(** [s.strip()] *)
Definition strip (s : string) : string := rstrip (lstrip s).

(** [str.lower] on one character: A..Z and the Latin-1 capitals
    (U+00C0..U+00DE without the multiplication sign U+00D7) move up by 32. *)
Definition lower_char (c : ascii) : ascii :=
  let n := code c in
  if ((65 <=? n) && (n <=? 90))
     || ((192 <=? n) && (n <=? 222) && negb (n =? 215))
  then ascii_of_nat (n + 32) else c.

(** [s.lower()] *)
Fixpoint lower (s : string) : string :=
  match s with
  | EmptyString => EmptyString
  | String c s' => String (lower_char c) (lower s')
  end.

(** [s.startswith(p)] *)
Fixpoint startswith (s p : string) : bool :=
  match p, s with
  | EmptyString, _ => true
  | String _ _, EmptyString => false
  | String a p', String b s' => Ascii.eqb a b && startswith s' p'
  end.

(** [s.replace(old, new)] for a one-character [old]. *)
Fixpoint replace (s : string) (old : ascii) (new : string) : string :=
  match s with
  | EmptyString => EmptyString
  | String c s' =>
      if Ascii.eqb c old then new +:+ replace s' old new
      else String c (replace s' old new)
  end.

(** [p in s] *)
Fixpoint contains (s p : string) : bool :=
  startswith s p
  || match s with
     | EmptyString => false
     | String _ s' => contains s' p
     end.

(** [c * n] *)
Fixpoint times (c : ascii) (n : nat) : string :=
  match n with
  | O => EmptyString
  | S n' => String c (times c n')
  end.

(** [str(n)] for a non-negative integer. *)
Definition of_nat (n : nat) : string :=
  NilZero.string_of_uint (Nat.to_uint n).

(** Truthiness of a string: empty is false. *)
Definition truthy (s : string) : bool := negb (is_empty s).

Definition nl : string := String (ascii_of_nat 10) EmptyString.

Definition dq : ascii := ascii_of_nat 34.

Fixpoint has_char (s : string) (c : ascii) : bool :=
  match s with
  | EmptyString => false
  | String a s' => Ascii.eqb a c || has_char s' c
  end.

Fixpoint concat_map (f : ascii -> string) (s : string) : string :=
  match s with
  | EmptyString => EmptyString
  | String c s' => f c +:+ concat_map f s'
  end.

End Str.

(** ** Python byte strings, as far as the script shows them *)

Module Bytes.

(** [bytes.isspace] on one byte: SPACE, TAB, LF, CR, VT, FF. *)
Definition isspace (c : ascii) : bool :=
  let n := Str.code c in ((9 <=? n) && (n <=? 13)) || (n =? 32).

Fixpoint lstrip (s : string) : string :=
  match s with
  | EmptyString => EmptyString
  | String c s' => if isspace c then lstrip s' else s
  end.

Fixpoint rstrip (s : string) : string :=
  match s with
  | EmptyString => EmptyString
  | String c s' =>
      let r := rstrip s' in
      if isspace c && Str.is_empty r then EmptyString else String c r
  end.

Definition strip (s : string) : string := rstrip (lstrip s).

Definition hex_digit (n : nat) : ascii :=
  if n <? 10 then ascii_of_nat (48 + n) else ascii_of_nat (87 + n).

Definition repr_byte (q c : ascii) : string :=
  let n := Str.code c in
  let bs : ascii := ascii_of_nat 92 in
  let esc (a : ascii) := String bs (String a EmptyString) in
  if Ascii.eqb c q || Ascii.eqb c bs then esc c
  else if n =? 9 then esc "t"%char
  else if n =? 10 then esc "n"%char
  else if n =? 13 then esc "r"%char
  else if (n <? 32) || (127 <=? n)
       then String bs (String "x"%char
              (String (hex_digit (n / 16)) (String (hex_digit (n mod 16)) EmptyString)))
  else String c EmptyString.

(** [repr(b)] *)
Definition repr (s : string) : string :=
  let q := if Str.has_char s "'" && negb (Str.has_char s Str.dq)
           then Str.dq else "'"%char in
  String "b"%char (String q (Str.concat_map (repr_byte q) s +:+ String q EmptyString)).

End Bytes.

(** Truthiness of a value that is a string or [None]. *)
Definition truthy (v : option string) : bool :=
  match v with
  | None => false
  | Some s => Str.truthy s
  end.

(** How an f-string renders a value that is a string or [None]. *)
Definition fmt (v : option string) : string :=
  match v with
  | None => "None"
  | Some s => s
  end.

(** ** [urllib.parse.quote] *)

Module Urllib.

(** UTF-8 bytes of one code point below 256. *)
Definition utf8 (c : ascii) : list nat :=
  let n := Str.code c in
  if n <? 128 then [n] else [192 + n / 64; 128 + n mod 64].

Fixpoint encode (s : string) : list nat :=
  match s with
  | EmptyString => []
  | String c s' => utf8 c ++ encode s'
  end.

(** The characters [quote] never escapes, and its default [safe='/']. *)
Definition always_safe : string :=
  "ABCDEFGHIJKLMNOPQRSTUVWXYZabcdefghijklmnopqrstuvwxyz0123456789_.-~".

Fixpoint mem (b : nat) (s : string) : bool :=
  match s with
  | EmptyString => false
  | String c s' => (Str.code c =? b) || mem b s'
  end.

Definition is_safe (b : nat) : bool := mem b always_safe || mem b "/".

Definition hex_digit (n : nat) : ascii :=
  if n <? 10 then ascii_of_nat (48 + n) else ascii_of_nat (55 + n).

(** ['%{:02X}'.format(b)] *)
Definition percent (b : nat) : string :=
  String "%" (String (hex_digit (b / 16)) (String (hex_digit (b mod 16)) EmptyString)).

Definition quoter (b : nat) : string :=
  if is_safe b then String (ascii_of_nat b) EmptyString else percent b.

Fixpoint quote_from_bytes (bs : list nat) : string :=
  match bs with
  | [] => EmptyString
  | b :: bs' => quoter b +:+ quote_from_bytes bs'
  end.

Definition quote_str (s : string) : string := quote_from_bytes (encode s).

End Urllib.

(** ** Exceptions *)

(** A captured stream: a [str] under [text=True], else a [bytes]. *)
Inductive captured : Type :=
| Text (s : string)
| Bytes (s : string).

Inductive exn : Type :=
| FileNotFoundError
| CalledProcessError (stderr : captured)
| JSONDecodeError
| TypeError
| EOFError
| ValueError
| PermissionError
| UnicodeDecodeError
| AttributeError
| SystemExit (code : nat).

(** [f"{e.stderr}"] *)
Definition fmt_captured (c : captured) : string :=
  match c with
  | Text s => s
  | Bytes s => Bytes.repr s
  end.

(** [f"{e.stderr.strip()}"] *)
Definition fmt_stripped (c : captured) : string :=
  match c with
  | Text s => Str.strip s
  | Bytes s => Bytes.repr (Bytes.strip s)
  end.

Inductive result (A : Type) : Type :=
| Ok (a : A)
| Raise (e : exn).
Arguments Ok {A} a.
Arguments Raise {A} e.

(** ["field not found" in e.stderr]: a [str] needle in a [bytes] is a
    [TypeError]. *)
Definition str_in_captured (needle : string) (c : captured) : result bool :=
  match c with
  | Text s => Ok (Str.contains s needle)
  | Bytes _ => Raise TypeError
  end.

(** [urllib.parse.quote(label)]: a [str] is quoted, [None] is refused with a
    [TypeError] by [quote_from_bytes]. *)
Definition quote (label : option string) : result string :=
  match label with
  | Some l => Ok (Urllib.quote_str l)
  | None => Raise TypeError
  end.

(** ** [construct_otp_url] *)

Definition construct_otp_url (secret : string) (label : option string) : result string :=
  let secret := Str.strip secret in
  if Str.startswith (Str.lower secret) "otpauth://" then Ok secret
  else
    let clean_secret := Str.replace (Str.replace secret " " "") "-" "" in
    match quote label with
    | Raise e => Raise e
    | Ok encoded_label =>
        Ok ("otpauth://totp/" +:+ encoded_label +:+ "?secret=" +:+ clean_secret
            +:+ "&issuer=BitwardenMigration")
    end.


(** ** Data model *)

(** One entry of [op item list --format json]. *)
Record op_item : Type := OpItem {
  op_title : option string;
  op_id : option string;
  op_additional_information : option string
}.

(** A value of the lookup: [{'id': ..., 'username': ...}]. *)
Record candidate : Type := Candidate {
  c_id : option string;
  c_username : string
}.

(** The [login] object of a Bitwarden item. *)
Record bw_login : Type := BwLogin {
  login_username : option string;
  login_totp : option string
}.

(** One entry of the export's [items] list. *)
Record bw_item : Type := BwItem {
  bw_name : option string;
  bw_login_of : option bw_login
}.

(** The parsed export; [bw_items = None] when the key [items] is missing. *)
Record bw_data : Type := BwData {
  bw_items : option (list bw_item)
}.

(** ** [find_match] *)

(** The [for candidate in candidates] loop. *)
Fixpoint scan_candidates (candidates : list candidate) (target_user : string)
  : option string :=
  match candidates with
  | [] => None
  | candidate :: rest =>
      let op_user := c_username candidate in
      if bool_decide (op_user = target_user) then c_id candidate
      else scan_candidates rest target_user
  end.

Definition find_match (title bw_username : option string) (op_lookup : gmap (option string) (list candidate))
  : option string :=
  match op_lookup !! title with
  | None => None
  | Some candidates =>
      let target_user := if truthy bw_username then fmt bw_username else "" in
      scan_candidates candidates target_user
  end.

(** ** The lookup construction of [get_op_items] *)

Definition add_op_item (lookup : gmap (option string) (list candidate)) (item : op_item) : gmap (option string) (list candidate) :=
  let title := op_title item in
  let op_id := op_id item in
  let username := default "" (op_additional_information item) in
  let lookup :=
    match lookup !! title with
    | None => <[title := []]> lookup
    | Some _ => lookup
    end in
  <[title := default [] (lookup !! title)
             ++ [ {| c_id := op_id; c_username := username |} ]]> lookup.

Definition build_lookup (items : list op_item) : gmap (option string) (list candidate) :=
  foldl add_op_item ∅ items.

(** ** The outside world *)

(** What spawning a process gives: the binary is missing
    ([FileNotFoundError]) or may not be executed ([PermissionError]), or the
    process ran and exited with a return code and its two captured streams;
    [Undecodable] when the streams are bytes that are no text in the
    locale's encoding, [Exited] when they are. *)
Inductive spawned : Type :=
| NotFound
| NotPermitted
| Undecodable (returncode : Z) (out err : string)
| Exited (returncode : Z) (out err : string).

(** How the value of [json.loads] can fail to be a list of objects: the text
    is no JSON ([JSONDecodeError]), the value cannot be iterated
    ([TypeError] at [for item in items]), or an element has no [get]
    ([AttributeError]). *)
Inductive bad_json : Type :=
| NotJson
| NotIterable
| NotObjects.

Definition bad_json_exn (b : bad_json) : exn :=
  match b with
  | NotJson => JSONDecodeError
  | NotIterable => TypeError
  | NotObjects => AttributeError
  end.

(** Everything the script reads from its environment.
    - [op_reply earlier argv]: what spawning [argv] gives after the commands
      [earlier] (oldest first) have been spawned;
    - [json_loads]: [json.loads] on the listing, as the list of items the
      loop of [get_op_items] walks, or the way it is none;
    - [path_exists]: [os.path.exists];
    - [json_load]: [open] and [json.load] on the export, [inl msg] when either
      raises an exception whose text is [msg];
    - [input_line]: the line typed at the prompt, [None] at end of input. *)
Record world : Type := World {
  op_reply : list (list string) -> list string -> spawned;
  json_loads : string -> bad_json + list op_item;
  path_exists : string -> bool;
  json_load : string -> string + bw_data;
  input_line : option string
}.

Module Run.

(** Console output (one entry per [print], and the prompt of [input]) and
    the commands handed to [subprocess.run], both oldest first. *)
Record io : Type := Io {
  stdout : list string;
  calls : list (list string)
}.

Definition M (A : Type) : Type := io -> result A * io.

Definition ret {A} (a : A) : M A := fun s => (Ok a, s).

Definition bind {A B} (c : M A) (k : A -> M B) : M B :=
  fun s =>
    match c s with
    | (Ok a, s') => k a s'
    | (Raise e, s') => (Raise e, s')
    end.

Definition raise {A} (e : exn) : M A := fun s => (Raise e, s).

(** [try: body except ...: handler]; [handler e = None] when no [except]
    clause takes [e], which then propagates. *)
Definition try_except {A} (body : M A) (handler : exn -> option (M A)) : M A :=
  fun s =>
    match body s with
    | (Ok a, s') => (Ok a, s')
    | (Raise e, s') =>
        match handler e with
        | Some h => h s'
        | None => (Raise e, s')
        end
    end.

Definition lift {A} (r : result A) : M A := fun s => (r, s).

Definition print (line : string) : M unit :=
  fun s => (Ok tt, {| stdout := stdout s ++ [line]; calls := calls s |}).

Definition sys_exit {A} (code : nat) : M A := raise (SystemExit code).

(** [input(prompt)] *)
Definition input (w : world) (prompt : string) : M string :=
  fun s =>
    let s' := {| stdout := stdout s ++ [prompt]; calls := calls s |} in
    match input_line w with
    | Some l => (Ok l, s')
    | None => (Raise EOFError, s')
    end.

(** An argument that holds a NUL character: no process can be given it. *)
Definition has_nul (argv : list string) : bool :=
  existsb (fun arg => Str.has_char arg (ascii_of_nat 0)) argv.

(** What [subprocess.run(argv, capture_output=True, text=text, check=True)]
    returns or raises after the commands [earlier]: [ValueError] for a NUL
    in an argument, before anything is spawned; the error of the spawn;
    [UnicodeDecodeError] when text is asked for and the output is none,
    whatever the return code; [CalledProcessError] for a return code other
    than 0; else the captured standard output. *)
Definition run_outcome (w : world) (earlier : list (list string))
    (argv : list string) (text : bool) : result captured :=
  let wrap := if text then Text else Bytes in
  let checked rc out err :=
    if (rc =? 0)%Z then Ok (wrap out) else Raise (CalledProcessError (wrap err)) in
  if has_nul argv then Raise ValueError
  else
    match op_reply w earlier argv with
    | NotFound => Raise FileNotFoundError
    | NotPermitted => Raise PermissionError
    | Undecodable rc out err =>
        if text then Raise UnicodeDecodeError else checked rc out err
    | Exited rc out err => checked rc out err
    end.

(** [subprocess.run(argv, capture_output=True, text=text, check=True)]; the
    value is the captured standard output. *)
Definition subprocess_run (w : world) (argv : list string) (text : bool)
  : M captured :=
  fun s =>
    (run_outcome w (calls s) argv text,
     {| stdout := stdout s; calls := calls s ++ [argv] |}).

(** [for x in xs: acc = body(acc, x)] *)
Fixpoint for_each {A S} (xs : list A) (body : S -> A -> M S) (acc : S) : M S :=
  match xs with
  | [] => ret acc
  | x :: xs' => bind (body acc x) (for_each xs' body)
  end.

End Run.

Notation "x <- c ;; k" := (Run.bind c (fun x => k))
  (at level 100, c at next level, right associativity).
Notation "c ;; k" := (Run.bind c (fun _ => k))
  (at level 100, right associativity).

(** ** Configuration and constants *)

Definition OP_VAULT_NAME : string := "Private".

Definition unlines (ls : list string) : string :=
  foldr (fun l acc => l +:+ Str.nl +:+ acc) EmptyString ls.

Definition quoted (s : string) : string :=
  String Str.dq (s +:+ String Str.dq EmptyString).

Definition MIT_LICENSE : string :=
  Str.nl +:+ unlines [
    "MIT License";
    "";
    "Copyright (c) 2025";
    "";
    "Permission is hereby granted, free of charge, to any person obtaining a copy";
    "of this software and associated documentation files (the " +:+ quoted "Software" +:+ "), to deal";
    "in the Software without restriction, including without limitation the rights";
    "to use, copy, modify, merge, publish, distribute, sublicense, and/or sell";
    "copies of the Software, and to permit persons to whom the Software is";
    "furnished to do so, subject to the following conditions:";
    "";
    "The above copyright notice and this permission notice shall be included in all";
    "copies or substantial portions of the Software.";
    "";
    "THE SOFTWARE IS PROVIDED " +:+ quoted "AS IS" +:+ ", WITHOUT WARRANTY OF ANY KIND, EXPRESS OR";
    "IMPLIED, INCLUDING BUT NOT LIMITED TO THE WARRANTIES OF MERCHANTABILITY,";
    "FITNESS FOR A PARTICULAR PURPOSE AND NONINFRINGEMENT. IN NO EVENT SHALL THE";
    "AUTHORS OR COPYRIGHT HOLDERS BE LIABLE FOR ANY CLAIM, DAMAGES OR OTHER";
    "LIABILITY, WHETHER IN AN ACTION OF CONTRACT, TORT OR OTHERWISE, ARISING FROM,";
    "OUT OF OR IN CONNECTION WITH THE SOFTWARE OR THE USE OR OTHER DEALINGS IN THE";
    "SOFTWARE."
  ].

(** ** [get_op_items] *)

Definition payload (c : captured) : string :=
  match c with Text s | Bytes s => s end.

Definition op_version : list string := ["op"; "--version"].

Definition op_item_list (vault_name : string) : list string :=
  ["op"; "item"; "list"; "--vault"; vault_name; "--format"; "json"].

Definition get_op_items (w : world) (vault_name : string) : Run.M (gmap (option string) (list candidate)) :=
  Run.print ("--> Fetching items from 1Password vault: '" +:+ vault_name +:+ "'...") ;;
  Run.try_except
    (Run.subprocess_run w op_version false ;;
     let cmd := op_item_list vault_name in
     result <- Run.subprocess_run w cmd true ;;
     match json_loads w (payload result) with
     | inl bad => Run.raise (bad_json_exn bad)
     | inr items => Run.ret (build_lookup items)
     end)
    (fun e =>
       match e with
       | FileNotFoundError =>
           Some (Run.print "Error: 'op' command not found. Is the 1Password CLI installed?" ;;
                 Run.sys_exit 1)
       | CalledProcessError stderr =>
           Some (Run.print ("Error fetching 1Password items: " +:+ fmt_captured stderr) ;;
                 Run.sys_exit 1)
       | _ => None
       end).

(** ** The per-record loop of [main] *)

Record args : Type := Args {
  file : option string;
  dry_run : bool;
  clear : bool;
  license : bool
}.

(** The locals [stats] and [orphans] of [main]. *)
Record tally : Type := Tally {
  found_in_bw : nat;
  matched : nat;
  success : nat;
  fail : nat;
  orphans : list string
}.

Definition tally0 : tally := Tally 0 0 0 0 [].

Definition incr_found (t : tally) : tally :=
  Tally (found_in_bw t + 1) (matched t) (success t) (fail t) (orphans t).
Definition incr_matched (t : tally) : tally :=
  Tally (found_in_bw t) (matched t + 1) (success t) (fail t) (orphans t).
Definition incr_success (t : tally) : tally :=
  Tally (found_in_bw t) (matched t) (success t + 1) (fail t) (orphans t).
Definition incr_fail (t : tally) : tally :=
  Tally (found_in_bw t) (matched t) (success t) (fail t + 1) (orphans t).
Definition add_orphan (o : string) (t : tally) : tally :=
  Tally (found_in_bw t) (matched t) (success t) (fail t) (orphans t ++ [o]).

Definition op_edit_delete (op_id : string) : list string :=
  ["op"; "item"; "edit"; op_id; "one-time password[delete]"].

Definition op_edit_otp (op_id otp_value : string) : list string :=
  ["op"; "item"; "edit"; op_id; "one-time password[otp]=" +:+ otp_value].

(** [item.get('login') and item['login'].get('totp')], when it is truthy:
    the login object and the secret. *)
Definition secret_of (item : bw_item) : option (bw_login * string) :=
  match bw_login_of item with
  | None => None
  | Some login =>
      match login_totp login with
      | None => None
      | Some totp => if Str.truthy totp then Some (login, totp) else None
      end
  end.

Definition who (title bw_username : option string) : string :=
  fmt title +:+ " (User: " +:+ fmt bw_username +:+ ")".

(** The branch [if args.clear:] for a matched record. *)
Definition clear_totp (w : world) (a : args) (t : tally)
    (title bw_username : option string) (op_id : string) : Run.M tally :=
  if dry_run a then
    Run.print ("    [DRY RUN] Would DELETE TOTP for: " +:+ who title bw_username) ;;
    Run.ret t
  else
    Run.print ("    [LIVE] Deleting TOTP for: " +:+ who title bw_username) ;;
    Run.try_except
      (Run.subprocess_run w (op_edit_delete op_id) true ;;
       Run.ret (incr_success t))
      (fun e =>
         match e with
         | CalledProcessError stderr =>
             Some (gone <- Run.lift (str_in_captured "field not found" stderr) ;;
                   if gone : bool then
                     Run.print ("    [INFO] Field already gone for: " +:+ fmt title) ;;
                     Run.ret t
                   else
                     Run.print ("    [FAIL] Could not delete " +:+ fmt title +:+ ": "
                                +:+ fmt_stripped stderr) ;;
                     Run.ret (incr_fail t))
         | _ => None
         end).

(** The branch [else:] (update) for a matched record. *)
Definition update_totp (w : world) (a : args) (t : tally)
    (title bw_username : option string) (totp_secret op_id : string) : Run.M tally :=
  otp_value <- Run.lift (construct_otp_url totp_secret title) ;;
  if dry_run a then
    Run.print ("    [DRY RUN] Would update: " +:+ who title bw_username) ;;
    Run.ret t
  else
    Run.print ("    [LIVE] Updating: " +:+ who title bw_username) ;;
    Run.try_except
      (Run.subprocess_run w (op_edit_otp op_id otp_value) true ;;
       Run.ret (incr_success t))
      (fun e =>
         match e with
         | CalledProcessError stderr =>
             Some (Run.print ("    [FAIL] Could not update " +:+ fmt title +:+ ": "
                              +:+ fmt_stripped stderr) ;;
                   Run.ret (incr_fail t))
         | _ => None
         end).

(** The body of [for item in items_processed:]. *)
Definition process_item (w : world) (a : args)
    (op_lookup : gmap (option string) (list candidate))
    (t : tally) (item : bw_item) : Run.M tally :=
  match secret_of item with
  | None => Run.ret t
  | Some (login, totp_secret) =>
      let t := incr_found t in
      let title := bw_name item in
      let bw_username := login_username login in
      let op_id := find_match title bw_username op_lookup in
      let unmatched := Run.ret (add_orphan (who title bw_username) t) in
      match op_id with
      | None => unmatched
      | Some op_id =>
          if Str.truthy op_id then
            let t := incr_matched t in
            if clear a then clear_totp w a t title bw_username op_id
            else update_totp w a t title bw_username totp_secret op_id
          else unmatched
      end
  end.

Definition process_items (w : world) (a : args)
    (op_lookup : gmap (option string) (list candidate))
    (items : list bw_item) : Run.M tally :=
  Run.for_each items (process_item w a op_lookup) tally0.

(** ** [main] *)

Definition print_summary (a : args) (action_label : string) (t : tally) : Run.M unit :=
  Run.print (Str.nl +:+ Str.times "=" 40) ;;
  Run.print ("SUMMARY (" +:+ action_label +:+ ")") ;;
  Run.print (Str.times "=" 40) ;;
  Run.print ("Bitwarden Items w/ TOTP: " +:+ Str.of_nat (found_in_bw t)) ;;
  Run.print ("Items Matched (Title+User): " +:+ Str.of_nat (matched t)) ;;
  (if negb (dry_run a) then
     Run.print ("Successful Actions:      " +:+ Str.of_nat (success t)) ;;
     Run.print ("Failed Actions:          " +:+ Str.of_nat (fail t))
   else
     Run.print "Mode: DRY RUN (No changes made)") ;;
  (match orphans t with
   | [] => Run.ret tt
   | _ :: _ =>
       Run.print (Str.times "-" 40) ;;
       Run.print "MISSING / UNMATCHED ITEMS:" ;;
       Run.for_each (orphans t) (fun _ o => Run.print (" - " +:+ o)) tt
   end) ;;
  Run.print (Str.times "=" 40 +:+ Str.nl).

(** The block under [if not args.dry_run:]: the warning and the prompt. *)
Definition confirm_live (w : world) (a : args) : Run.M unit :=
  Run.print (Str.nl +:+ Str.times "!" 60) ;;
  Run.print "WARNING: LIVE MODE ACTIVE" ;;
  Run.print (Str.times "!" 60) ;;
  Run.print "1. Ensure you have backed up your 1Password data before proceeding." ;;
  (if clear a then
     Run.print "2. You are running in CLEANUP mode (-c)." ;;
     Run.print "   This will PERMANENTLY DELETE the 'one-time password' field" ;;
     Run.print "   from matched items."
   else
     Run.print "2. You are running in UPDATE mode." ;;
     Run.print "   This will OVERWRITE the 'one-time password' field.") ;;
  confirm <- Run.input w (Str.nl +:+ "Type 'yes' to continue: ") ;;
  if negb (bool_decide (Str.lower confirm = "yes")) then
    Run.print "Aborted." ;;
    Run.sys_exit 0
  else Run.ret tt.

(** Everything of [main] from [# 1. Load Data] on, for the export at [path]. *)
Definition migrate (w : world) (a : args) (path : string) : Run.M tally :=
  op_lookup <- get_op_items w OP_VAULT_NAME ;;
  bw_data <-
    match json_load w path with
    | inl e =>
        Run.print ("Error reading " +:+ path +:+ ": " +:+ e) ;;
        Run.sys_exit 1
    | inr d => Run.ret d
    end ;;
  let mode_label := if dry_run a then "DRY RUN" else "LIVE" in
  let action_label := if clear a then "CLEARING/DELETING" else "UPDATING" in
  Run.print ("--> Starting " +:+ action_label +:+ " (" +:+ mode_label +:+ ")...") ;;
  let items_processed := default [] (bw_items bw_data) in
  t <- process_items w a op_lookup items_processed ;;
  print_summary a action_label t ;;
  Run.ret t.

(** [main], after [parse_arguments] has produced [a]; the value is the
    final [stats] and [orphans], which the script only prints. *)
Definition main (w : world) (a : args) : Run.M tally :=
  if license a then
    Run.print MIT_LICENSE ;;
    Run.sys_exit 0
  else
    match file a with
    | Some path =>
        if Str.truthy path then
          if negb (path_exists w path) then
            Run.print ("Error: File '" +:+ path +:+ "' not found.") ;;
            Run.sys_exit 1
          else
            (if negb (dry_run a) then confirm_live w a else Run.ret tt) ;;
            migrate w a path
        else
          Run.print "Error: the following arguments are required: -f/--file" ;;
          Run.sys_exit 1
    | None =>
        Run.print "Error: the following arguments are required: -f/--file" ;;
        Run.sys_exit 1
    end.

(** The empty console and command log a run starts from. *)
Definition io0 : Run.io := Run.Io [] [].

(** A command that edits a vault item. *)
Definition is_mutation (argv : list string) : bool :=
  match argv with
  | a :: b :: c :: _ =>
      bool_decide (a = "op") && bool_decide (b = "item") && bool_decide (c = "edit")
  | _ => false
  end.

(** ** Definitions the statements are written with *)

(** The spec's wording of the cleaning step, to compare with the two
    [replace] calls: keep, in order, every character that is neither a
    space nor a hyphen. *)
Definition without_space_hyphen (s : string) : string :=
  string_of_list_ascii
    (filter (fun c => c <> " "%char /\ c <> "-"%char) (list_ascii_of_string s)).

(** The URI the spec composes from an encoded label and a cleaned secret. *)
Definition otpauth_uri (encoded_label clean_secret : string) : string :=
  "otpauth://totp/" +:+ encoded_label +:+ "?secret=" +:+ clean_secret
  +:+ "&issuer=BitwardenMigration".

(** A string that does not start with white space. *)
Definition starts_clean (s : string) : Prop :=
  match s with
  | EmptyString => True
  | String c _ => Str.isspace c = false
  end.

(** The test of [construct_otp_url]: the trimmed secret begins with the
    otpauth scheme, whatever the case of its letters. *)
Definition otpauth_prefixed (secret : string) : bool :=
  Str.startswith (Str.lower (Str.strip secret)) "otpauth://".

(** The spec's normalization of a username: null or absent becomes the
    empty string. *)
Definition normalize (username : option string) : string := default "" username.

(** The spec's matcher, to compare with [find_match]: look the title up; among
    its candidates take the first, in index order, whose stored username equals
    the normalized input, and return its identifier. *)
Definition match_spec (title username : option string)
    (index : gmap (option string) (list candidate)) : option string :=
  match index !! title with
  | None => None
  | Some candidates =>
      match list_find (fun c => c_username c = normalize username) candidates with
      | Some (_, c) => c_id c
      | None => None
      end
  end.

(** ** Sample data for the examples *)

(** The index of the spec's example, with a candidate of another case in
    front and a duplicate behind the exact hit. *)
Definition example_index : gmap (option string) (list candidate) :=
  {[ Some "Example" := [Candidate (Some "X0") "Alice";
                        Candidate (Some "X1") "alice";
                        Candidate (Some "X2") "alice"] ]}.

(** A secret with a TAB in front. *)
Definition tab_secret : string := String (ascii_of_nat 9) "AB".

(** A vault listing whose only item has the empty string as identifier. *)
Definition empty_id_index : gmap (option string) (list candidate) :=
  build_lookup [OpItem (Some "Example") (Some "") (Some "alice")].

Definition alice_item : bw_item :=
  BwItem (Some "Example") (Some (BwLogin (Some "alice") (Some "JBSWY3DPEHPK3PXP"))).

Definition bob_item : bw_item :=
  BwItem (Some "Example") (Some (BwLogin (Some "bob") (Some "GEZDGNBVGY3TQOJQ"))).

(** A world where [op] is installed, lists one item, and refuses every edit
    with the given error text. *)
Definition refusing_world (err : string) (line : option string) : world :=
  {| op_reply := fun _ argv =>
       if is_mutation argv then Exited 1 "" err else Exited 0 "[]" "";
     json_loads := fun _ => inr [OpItem (Some "Example") (Some "X1") (Some "alice")];
     path_exists := fun _ => true;
     json_load := fun _ => inr (BwData (Some [alice_item]));
     input_line := line |}.

Definition dry_update_args : args := Args (Some "export.json") true false false.
Definition dry_clear_args : args := Args (Some "export.json") true true false.
Definition live_update_args : args := Args (Some "export.json") false false false.
Definition live_clear_args : args := Args (Some "export.json") false true false.

(** What the mutation applier may do to the tally of a matched record:
    nothing, one more success, or one more failure. *)
Definition applied (t t' : tally) : Prop :=
  t' = t \/ t' = incr_success t \/ t' = incr_fail t.

(** The orchestrator's balance: every discovered record is matched or an
    orphan. *)
Definition balanced (t : tally) : Prop :=
  found_in_bw t = matched t + length (orphans t).

(** The operator typed "yes", in any case of its letters. *)
Definition confirmed (w : world) : Prop :=
  exists line, input_line w = Some line /\ Str.lower line = "yes".

(** ** Definitions for the properties of the rest of the code *)

(** The candidate [get_op_items] stores for a listed item. *)
Definition to_candidate (item : op_item) : candidate :=
  {| c_id := op_id item;
     c_username := default "" (op_additional_information item) |}.

(** The listed items that carry a given title, in listing order. *)
Definition titled (title : option string) (items : list op_item) : list op_item :=
  filter (fun item => op_title item = title) items.

(** Every character of a string passes a test. *)
Fixpoint all_chars (p : ascii -> bool) (s : string) : bool :=
  match s with
  | EmptyString => true
  | String c s' => p c && all_chars p s'
  end.

(** The characters [quote] leaves as they are. *)
Definition unreserved (c : ascii) : bool := Urllib.is_safe (Str.code c).

(** The characters an encoded label is made of. *)
Definition label_char (c : ascii) : bool :=
  unreserved c || Ascii.eqb c "%".

(** A string made of white space only. *)
Definition blank (s : string) : Prop := all_chars Str.isspace s = true.

(** A command that only reads from the vault. *)
Definition read_only (argv : list string) : Prop := is_mutation argv = false.

(** The one command the loop may spawn for [item]: the edit of the item the
    matcher found for it, a delete in clear mode and else the otp update with
    the URI built from the record's secret and title. *)
Definition edit_for (a : args) (op_lookup : gmap (option string) (list candidate))
    (item : bw_item) (argv : list string) : Prop :=
  exists login secret op_id,
    secret_of item = Some (login, secret)
    /\ find_match (bw_name item) (login_username login) op_lookup = Some op_id
    /\ Str.truthy op_id = true
    /\ if clear a then argv = op_edit_delete op_id
       else exists otp_value,
              construct_otp_url secret (bw_name item) = Ok otp_value
              /\ argv = op_edit_otp op_id otp_value.

(** The records of the export by what the loop does with them. *)
Definition carries_secret (item : bw_item) : bool :=
  match secret_of item with Some _ => true | None => false end.

Definition is_matched (op_lookup : gmap (option string) (list candidate))
    (item : bw_item) : bool :=
  match secret_of item with
  | Some (login, _) =>
      truthy (find_match (bw_name item) (login_username login) op_lookup)
  | None => false
  end.

Definition is_orphan (op_lookup : gmap (option string) (list candidate))
    (item : bw_item) : bool :=
  carries_secret item && negb (is_matched op_lookup item).

(** The line an orphan is listed with. *)
Definition descriptor (item : bw_item) : string :=
  who (bw_name item)
      (match bw_login_of item with
       | Some login => login_username login
       | None => None
       end).


(** A world where [op] answers every command with exit code [rc] and the
    listing is the given one. *)
Definition uniform_world (rc : Z) (err : string) (listing : list op_item)
    (export : list bw_item) (line : option string) : world :=
  {| op_reply := fun _ argv =>
       if is_mutation argv then Exited rc "" err else Exited 0 "[]" "";
     json_loads := fun _ => inr listing;
     path_exists := fun _ => true;
     json_load := fun _ => inr (BwData (Some export));
     input_line := line |}.

(** A world without the [op] binary. *)
Definition no_op_world : world :=
  {| op_reply := fun _ _ => NotFound;
     json_loads := fun _ => inl NotJson;
     path_exists := fun _ => true;
     json_load := fun _ => inr (BwData None);
     input_line := Some "yes" |}.

Definition sample_listing : list op_item :=
  [OpItem (Some "Example") (Some "X0") (Some "Alice");
   OpItem (Some "Mail") (Some "M1") None;
   OpItem (Some "Example") (Some "X1") (Some "alice");
   OpItem (Some "Example") (Some "X2") (Some "alice")].

(** A record without a title, and a vault item without one. *)
Definition untitled_item : bw_item :=
  BwItem None (Some (BwLogin (Some "alice") (Some "JBSWY3DPEHPK3PXP"))).

Definition untitled_listing : list op_item :=
  [OpItem None (Some "U1") (Some "alice")].

(** A TAB and a blank. *)
Definition blank_pad : string := String (ascii_of_nat 9) " ".

(** A listed item a record with this title and username is matched to. *)
Definition same_entry (title bw_username : option string) (item : op_item) : Prop :=
  op_title item = title
  /\ default "" (op_additional_information item) = default "" bw_username.

(** The books of a live loop after some records: one spawned command per
    matched record, each counted at most once. *)
Definition live_books (a : args) (io : Run.io) (t : tally) (io' : Run.io) : Prop :=
  exists cs,
    Run.calls io' = Run.calls io ++ cs
    /\ length cs = matched t
    /\ success t + fail t <= matched t
    /\ (clear a = false -> success t + fail t = matched t).

(** The command a live loop spawns for a record, if any: [edit_for] as a
    function. *)
Definition edit_command (a : args) (op_lookup : gmap (option string) (list candidate))
    (item : bw_item) : option (list string) :=
  match secret_of item with
  | Some (login, secret) =>
      match find_match (bw_name item) (login_username login) op_lookup with
      | Some op_id =>
          if Str.truthy op_id then
            if clear a then Some (op_edit_delete op_id)
            else match construct_otp_url secret (bw_name item) with
                 | Ok otp_value => Some (op_edit_otp op_id otp_value)
                 | Raise _ => None
                 end
          else None
      | None => None
      end
  | None => None
  end.

(** What the two [try] blocks of the loop make of the outcome of the edit
    command, for the tally [t] of a matched record: a success, a failure
    (none in clear mode when the error says the field is gone), or the
    exception no [except] clause takes. *)
Definition edit_outcome (a : args) (w : world) (earlier : list (list string))
    (argv : list string) (t : tally) : result tally :=
  match Run.run_outcome w earlier argv true with
  | Ok _ => Ok (incr_success t)
  | Raise (CalledProcessError stderr) =>
      if clear a then
        match str_in_captured "field not found" stderr with
        | Ok gone => Ok (if gone then t else incr_fail t)
        | Raise e => Raise e
        end
      else Ok (incr_fail t)
  | Raise e => Raise e
  end.

(** The exception of [sys.exit]. *)
Definition is_exit (e : exn) : bool :=
  match e with SystemExit _ => true | _ => false end.

(** A world where [op] answers the queries and is gone when an edit is
    spawned. *)
Definition vanishing_world (line : option string) : world :=
  {| op_reply := fun _ argv =>
       if is_mutation argv then NotFound else Exited 0 "[]" "";
     json_loads := fun _ => inr [OpItem (Some "Example") (Some "X1") (Some "alice")];
     path_exists := fun _ => true;
     json_load := fun _ => inr (BwData (Some [alice_item; bob_item]));
     input_line := line |}.

(** A dry run over a record without title, matched to a vault item without
    title, and a second record. *)
Definition untitled_world : world :=
  uniform_world 0 "" untitled_listing [untitled_item; alice_item] None.

(** * Properties *)

(** ** Strings *)

Section StrFacts.

Import Str.

Lemma is_empty_true s : is_empty s = true <-> s = EmptyString.
Proof. destruct s; simpl; split; congruence. Qed.

Lemma is_empty_app a b : is_empty b = false -> is_empty (a +:+ b) = false.
Proof. destruct a; simpl; auto. Qed.

Lemma rstrip_idem s : rstrip (rstrip s) = rstrip s.
Proof.
  induction s as [|c s IH]; simpl; [reflexivity|].
  destruct (isspace c && is_empty (rstrip s)) eqn:E; simpl; [reflexivity|].
  rewrite IH, E. reflexivity.
Qed.

Lemma lstrip_clean s : starts_clean (lstrip s).
Proof.
  induction s as [|c s IH]; simpl; [exact I|].
  destruct (isspace c) eqn:E; simpl; auto.
Qed.

Lemma lstrip_id s : starts_clean s -> lstrip s = s.
Proof. destruct s as [|c s]; simpl; [reflexivity|]. intros ->. reflexivity. Qed.

Lemma rstrip_clean s : starts_clean s -> starts_clean (rstrip s).
Proof.
  destruct s as [|c s]; simpl; [auto|]. intros E. rewrite E. simpl. exact E.
Qed.

Lemma strip_idem s : strip (strip s) = strip s.
Proof.
  unfold strip.
  rewrite (lstrip_id (rstrip (lstrip s))) by apply rstrip_clean, lstrip_clean.
  apply rstrip_idem.
Qed.

Lemma rstrip_app a b :
  is_empty (rstrip b) = false -> rstrip (a +:+ b) = a +:+ rstrip b.
Proof.
  intros Hb. induction a as [|c a IH]; simpl; [reflexivity|].
  rewrite IH, (is_empty_app a _ Hb), andb_false_r. reflexivity.
Qed.

Lemma rstrip_app_nonempty a b :
  is_empty (rstrip b) = false -> is_empty (rstrip (a +:+ b)) = false.
Proof. intros Hb. rewrite rstrip_app by assumption. apply is_empty_app, Hb. Qed.

Lemma replace_filter s old :
  replace s old "" =
  string_of_list_ascii (filter (fun c => c <> old) (list_ascii_of_string s)).
Proof.
  induction s as [|c s IH]; simpl; [reflexivity|].
  destruct (Ascii.eqb_spec c old) as [->|Hne].
  - rewrite IH. rewrite filter_cons_False by tauto. reflexivity.
  - rewrite filter_cons_True by assumption. simpl. rewrite IH. reflexivity.
Qed.

Lemma clean_secret_spec s :
  replace (replace s " " "") "-" "" = without_space_hyphen s.
Proof.
  rewrite (replace_filter _ "-"), (replace_filter s " ").
  rewrite list_ascii_of_string_of_list_ascii.
  unfold without_space_hyphen. f_equal.
  induction (list_ascii_of_string s) as [|c l IH]; [reflexivity|].
  destruct (decide (c = " "%char)) as [->|H1].
  - rewrite (filter_cons_False (fun c => c <> " "%char)) by tauto.
    rewrite (filter_cons_False (fun c => c <> " "%char /\ _)) by tauto.
    exact IH.
  - rewrite (filter_cons_True (fun c => c <> " "%char)) by assumption.
    destruct (decide (c = "-"%char)) as [->|H2].
    + rewrite (filter_cons_False (fun c => c <> "-"%char)) by tauto.
      rewrite (filter_cons_False (fun c => _ /\ c <> "-"%char)) by tauto.
      exact IH.
    + rewrite (filter_cons_True (fun c => c <> "-"%char)) by assumption.
      rewrite (filter_cons_True (fun c => c <> " "%char /\ _)) by tauto.
      f_equal. exact IH.
Qed.

End StrFacts.

(** ** [construct_otp_url] *)

Lemma construct_otp_url_passthrough secret label :
  otpauth_prefixed secret = true ->
  construct_otp_url secret label = Ok (Str.strip secret).
Proof. unfold otpauth_prefixed, construct_otp_url. intros ->. reflexivity. Qed.

Lemma construct_otp_url_compose secret label :
  otpauth_prefixed secret = false ->
  construct_otp_url secret (Some label)
  = Ok (otpauth_uri (Urllib.quote_str label)
          (Str.replace (Str.replace (Str.strip secret) " " "") "-" "")).
Proof. unfold otpauth_prefixed, construct_otp_url. intros ->. reflexivity. Qed.

Lemma otpauth_uri_strip e c : Str.strip (otpauth_uri e c) = otpauth_uri e c.
Proof.
  unfold Str.strip, otpauth_uri.
  rewrite lstrip_id by reflexivity.
  rewrite !rstrip_app by (repeat apply rstrip_app_nonempty; reflexivity).
  reflexivity.
Qed.

Lemma otpauth_uri_prefixed e c : otpauth_prefixed (otpauth_uri e c) = true.
Proof. unfold otpauth_prefixed. rewrite otpauth_uri_strip. reflexivity. Qed.

Lemma strip_prefixed secret :
  otpauth_prefixed secret = true -> otpauth_prefixed (Str.strip secret) = true.
Proof. unfold otpauth_prefixed. rewrite strip_idem. auto. Qed.

(** C3, as stated, fails: a secret that carries the otpauth prefix behind a
    leading blank is returned without the blank, not as the original input. *)
Lemma construct_otp_url_prefixed_not_original :
  otpauth_prefixed " otpauth://totp/x?secret=AB" = true
  /\ construct_otp_url " otpauth://totp/x?secret=AB" (Some "x")
     = Ok "otpauth://totp/x?secret=AB"
  /\ construct_otp_url " otpauth://totp/x?secret=AB" (Some "x")
     <> Ok " otpauth://totp/x?secret=AB".
Proof. vm_compute. repeat split; congruence. Qed.

(** C3 (amended): for every secret that, after trimming surrounding white
    space, begins with "otpauth://" compared case-insensitively, and for any
    label (a string or [None]), [construct_otp_url] returns the trimmed
    secret; this is the original input whenever the input has no surrounding
    white space. *)
Theorem construct_otp_url_prefixed_returns_trimmed secret label :
  otpauth_prefixed secret = true ->
  construct_otp_url secret label = Ok (Str.strip secret)
  /\ (Str.strip secret = secret -> construct_otp_url secret label = Ok secret).
Proof.
  intros H. rewrite (construct_otp_url_passthrough _ _ H).
  split; [reflexivity | intros ->; reflexivity].
Qed.

Lemma construct_otp_url_prefixed_returns_trimmed_witness :
  otpauth_prefixed "  OtpAuth://totp/x?secret=AB " = true
  /\ construct_otp_url "  OtpAuth://totp/x?secret=AB " None
     = Ok "OtpAuth://totp/x?secret=AB".
Proof.
  split; [reflexivity|].
  exact (proj1 (construct_otp_url_prefixed_returns_trimmed
                  "  OtpAuth://totp/x?secret=AB " None eq_refl)).
Defined.

(** C6: [construct_otp_url] on the secret "ABCD EFGH-1234" and the label
    "My Login" returns exactly
    "otpauth://totp/My%20Login?secret=ABCDEFGH1234&issuer=BitwardenMigration". *)
Theorem construct_otp_url_my_login :
  construct_otp_url "ABCD EFGH-1234" (Some "My Login")
  = Ok "otpauth://totp/My%20Login?secret=ABCDEFGH1234&issuer=BitwardenMigration".
Proof. vm_compute. reflexivity. Qed.

(** Whatever [construct_otp_url] returns carries the prefix and is returned
    again by a second call, also when the label is missing. *)
Lemma construct_otp_url_again secret label u :
  construct_otp_url secret label = Ok u ->
  otpauth_prefixed u = true /\ construct_otp_url u label = Ok u.
Proof.
  intros E.
  assert (Hu : otpauth_prefixed u = true /\ Str.strip u = u).
  { destruct (otpauth_prefixed secret) eqn:H.
    - rewrite (construct_otp_url_passthrough _ _ H) in E.
      injection E as <-. split; [apply strip_prefixed, H | apply strip_idem].
    - destruct label as [l|].
      + rewrite (construct_otp_url_compose _ _ H) in E. injection E as <-.
        split; [apply otpauth_uri_prefixed | apply otpauth_uri_strip].
      + unfold construct_otp_url in E. fold (otpauth_prefixed secret) in E.
        rewrite H in E. discriminate E. }
  destruct Hu as [Hp Hs]. split; [exact Hp|].
  rewrite (construct_otp_url_passthrough _ _ Hp), Hs. reflexivity.
Qed.

Lemma construct_otp_url_total secret (label : string) :
  exists u, construct_otp_url secret (Some label) = Ok u.
Proof.
  destruct (otpauth_prefixed secret) eqn:H.
  - rewrite (construct_otp_url_passthrough _ _ H). eauto.
  - rewrite (construct_otp_url_compose _ _ H). eauto.
Qed.

(** C7: [construct_otp_url] is idempotent: for every secret and label it
    returns a URI [u], [u] begins with the otpauth prefix, and applying
    [construct_otp_url] to [u] and the same label returns [u] again. *)
Theorem construct_otp_url_idempotent (secret label : string) :
  exists u,
    construct_otp_url secret (Some label) = Ok u
    /\ otpauth_prefixed u = true
    /\ construct_otp_url u (Some label) = Ok u.
Proof.
  destruct (construct_otp_url_total secret label) as [u E].
  exists u. split; [exact E|]. exact (construct_otp_url_again _ _ _ E).
Qed.

(** C10, as stated, fails: a leading TAB is neither a space nor a hyphen,
    yet it is not embedded in the URI, since the secret is trimmed first. *)
Lemma construct_otp_url_drops_leading_tab :
  otpauth_prefixed tab_secret = false
  /\ without_space_hyphen tab_secret = tab_secret
  /\ construct_otp_url tab_secret (Some "L")
     = Ok "otpauth://totp/L?secret=AB&issuer=BitwardenMigration"
  /\ construct_otp_url tab_secret (Some "L")
     <> Ok (otpauth_uri (Urllib.quote_str "L") (without_space_hyphen tab_secret)).
Proof. vm_compute. repeat split; congruence. Qed.

(** C10 (amended): for every secret that does not begin (after trimming)
    with the otpauth prefix, [construct_otp_url] removes from the trimmed
    secret only space and hyphen characters; every other character of the
    trimmed secret is embedded verbatim, in order and unescaped, after
    "?secret=", and only the label is percent-encoded. *)
Theorem construct_otp_url_keeps_other_characters secret label :
  otpauth_prefixed secret = false ->
  construct_otp_url secret (Some label)
  = Ok ("otpauth://totp/" +:+ Urllib.quote_str label +:+ "?secret="
        +:+ without_space_hyphen (Str.strip secret)
        +:+ "&issuer=BitwardenMigration").
Proof.
  intros H. rewrite (construct_otp_url_compose _ _ H), clean_secret_spec.
  reflexivity.
Qed.

Lemma construct_otp_url_keeps_other_characters_witness :
  otpauth_prefixed "a&b=c?d#e f-g" = false
  /\ construct_otp_url "a&b=c?d#e f-g" (Some "a&b c")
     = Ok "otpauth://totp/a%26b%20c?secret=a&b=c?d#efg&issuer=BitwardenMigration".
Proof.
  split; [reflexivity|].
  exact (construct_otp_url_keeps_other_characters "a&b=c?d#e f-g" "a&b c" eq_refl).
Defined.

(** ** [find_match] *)

Lemma target_user_normalize (bw_username : option string) :
  (if truthy bw_username then fmt bw_username else "") = normalize bw_username.
Proof. destruct bw_username as [[|c s]|]; reflexivity. Qed.

Lemma scan_candidates_first before c after target :
  Forall (fun c' => c_username c' <> target) before ->
  c_username c = target ->
  scan_candidates (before ++ c :: after) target = c_id c.
Proof.
  intros Hb Hc. induction Hb as [|c' before Hc' _ IH]; simpl.
  - rewrite bool_decide_eq_true_2 by assumption. reflexivity.
  - rewrite bool_decide_eq_false_2 by assumption. exact IH.
Qed.

Lemma scan_candidates_none candidates target :
  Forall (fun c => c_username c <> target) candidates ->
  scan_candidates candidates target = None.
Proof.
  induction 1 as [|c l Hc _ IH]; simpl; [reflexivity|].
  rewrite bool_decide_eq_false_2 by assumption. exact IH.
Qed.

Lemma scan_candidates_find candidates target :
  scan_candidates candidates target
  = match list_find (fun c => c_username c = target) candidates with
    | Some (_, c) => c_id c
    | None => None
    end.
Proof.
  induction candidates as [|c l IH]; simpl; [reflexivity|].
  case_bool_decide as Hc.
  - rewrite decide_True by exact Hc. reflexivity.
  - rewrite decide_False by exact Hc.
    rewrite IH. destruct (list_find _ l) as [[i c']|]; reflexivity.
Qed.

(** [find_match] computes the spec's matcher. *)
Lemma find_match_refines title bw_username op_lookup :
  find_match title bw_username op_lookup = match_spec title bw_username op_lookup.
Proof.
  unfold find_match, match_spec. destruct (op_lookup !! title); [|reflexivity].
  rewrite target_user_normalize. apply scan_candidates_find.
Qed.

(** C1: for every title, username and index: when the title is absent from
    the index, [find_match] returns [None] (unmatched); otherwise, with the
    username normalized (null or absent becomes the empty string), it returns
    the identifier of the first candidate, in index order, whose stored
    username equals the normalized input exactly, and [None] when no
    candidate's username is equal. *)
Theorem find_match_first_exact (title bw_username : option string)
    (op_lookup : gmap (option string) (list candidate)) :
  (op_lookup !! title = None ->
   find_match title bw_username op_lookup = None)
  /\ (forall before c after,
        op_lookup !! title = Some (before ++ c :: after) ->
        Forall (fun c' => c_username c' <> normalize bw_username) before ->
        c_username c = normalize bw_username ->
        find_match title bw_username op_lookup = c_id c)
  /\ (forall candidates,
        op_lookup !! title = Some candidates ->
        Forall (fun c => c_username c <> normalize bw_username) candidates ->
        find_match title bw_username op_lookup = None).
Proof.
  unfold find_match. rewrite target_user_normalize. repeat split.
  - intros ->. reflexivity.
  - intros before c after -> Hb Hc. apply scan_candidates_first; assumption.
  - intros candidates -> Hn. apply scan_candidates_none, Hn.
Qed.

Lemma find_match_first_exact_witness :
  find_match (Some "Other") (Some "alice") example_index = None
  /\ find_match (Some "Example") (Some "alice") example_index = Some "X1"
  /\ find_match (Some "Example") (Some "bob") example_index = None.
Proof.
  set (index := example_index).
  destruct (find_match_first_exact (Some "Other") (Some "alice") index) as (H1 & _ & _).
  destruct (find_match_first_exact (Some "Example") (Some "alice") index) as (_ & H2 & _).
  destruct (find_match_first_exact (Some "Example") (Some "bob") index) as (_ & _ & H3).
  split; [|split].
  - apply H1. reflexivity.
  - apply (H2 [Candidate (Some "X0") "Alice"] (Candidate (Some "X1") "alice")
              [Candidate (Some "X2") "alice"]).
    + reflexivity.
    + repeat constructor. simpl. discriminate.
    + reflexivity.
  - apply (H3 [Candidate (Some "X0") "Alice"; Candidate (Some "X1") "alice";
               Candidate (Some "X2") "alice"]).
    + reflexivity.
    + repeat constructor; simpl; discriminate.
Defined.

(** ** The per-record loop *)

Ltac run_unfold :=
  unfold Run.bind, Run.print, Run.ret, Run.try_except, Run.subprocess_run,
    Run.lift, Run.raise, Run.sys_exit, Run.input in *.

Lemma process_item_skip w a op_lookup t item :
  secret_of item = None -> process_item w a op_lookup t item = Run.ret t.
Proof. unfold process_item. intros ->. reflexivity. Qed.

Lemma process_item_matched w a op_lookup t item login secret op_id :
  secret_of item = Some (login, secret) ->
  find_match (bw_name item) (login_username login) op_lookup = Some op_id ->
  Str.truthy op_id = true ->
  process_item w a op_lookup t item
  = if clear a
    then clear_totp w a (incr_matched (incr_found t))
           (bw_name item) (login_username login) op_id
    else update_totp w a (incr_matched (incr_found t))
           (bw_name item) (login_username login) secret op_id.
Proof. unfold process_item. intros -> -> ->. reflexivity. Qed.

Lemma process_item_orphan w a op_lookup t item login secret :
  secret_of item = Some (login, secret) ->
  truthy (find_match (bw_name item) (login_username login) op_lookup) = false ->
  process_item w a op_lookup t item
  = Run.ret (add_orphan (who (bw_name item) (login_username login)) (incr_found t)).
Proof.
  unfold process_item. intros -> H.
  destruct (find_match _ _ _) as [i|]; [|reflexivity].
  simpl in H. rewrite H. reflexivity.
Qed.

Lemma truthy_Some (v : option string) :
  truthy v = true -> exists s, v = Some s /\ Str.truthy s = true.
Proof. destruct v as [s|]; simpl; [eauto | discriminate]. Qed.

Lemma clear_totp_dry w a t title bw_username op_id io :
  dry_run a = true ->
  clear_totp w a t title bw_username op_id io
  = (Ok t, Run.Io (Run.stdout io
                   ++ ["    [DRY RUN] Would DELETE TOTP for: " +:+ who title bw_username])
                  (Run.calls io)).
Proof. unfold clear_totp. intros ->. reflexivity. Qed.

Lemma update_totp_dry w a t title bw_username secret op_id io :
  dry_run a = true ->
  update_totp w a t title bw_username secret op_id io
  = match construct_otp_url secret title with
    | Ok _ =>
        (Ok t, Run.Io (Run.stdout io
                       ++ ["    [DRY RUN] Would update: " +:+ who title bw_username])
                      (Run.calls io))
    | Raise e => (Raise e, io)
    end.
Proof.
  unfold update_totp. intros ->. run_unfold.
  destruct (construct_otp_url secret title); reflexivity.
Qed.

Lemma construct_otp_url_raise secret label e :
  construct_otp_url secret label = Raise e ->
  e = TypeError /\ label = None /\ otpauth_prefixed secret = false.
Proof.
  unfold construct_otp_url. fold (otpauth_prefixed secret).
  destruct (otpauth_prefixed secret); [discriminate|].
  destruct label; simpl; [discriminate|]. intros [= <-]. auto.
Qed.

(** C2: in dry-run mode, in clear mode as in update mode, processing a
    matched record hands no command to [subprocess.run] and leaves the
    success and failure counters as they were; all it does is print one
    preview line (or, when the record has no title for the URI, die of the
    [TypeError] of [quote] before printing). *)
Theorem dry_run_previews_only w a op_lookup t item io login secret op_id :
  dry_run a = true ->
  secret_of item = Some (login, secret) ->
  find_match (bw_name item) (login_username login) op_lookup = Some op_id ->
  Str.truthy op_id = true ->
  match process_item w a op_lookup t item io with
  | (Ok t', io') =>
      Run.calls io' = Run.calls io
      /\ success t' = success t /\ fail t' = fail t
      /\ exists preview, Run.stdout io' = Run.stdout io ++ [preview]
  | (Raise e, io') =>
      io' = io /\ e = TypeError /\ clear a = false /\ bw_name item = None
  end.
Proof.
  intros Hdry Hs Hm Ht.
  rewrite (process_item_matched _ _ _ _ _ _ _ _ Hs Hm Ht).
  destruct (clear a) eqn:Hc.
  - rewrite clear_totp_dry by assumption. simpl. eauto.
  - rewrite update_totp_dry by assumption.
    destruct (construct_otp_url secret (bw_name item)) eqn:E.
    + simpl. eauto.
    + apply construct_otp_url_raise in E as (-> & -> & _). auto.
Qed.

Lemma dry_run_previews_only_witness :
  match process_item (refusing_world "denied" None) dry_update_args
          example_index tally0 alice_item io0 with
  | (Ok t', io') =>
      Run.calls io' = Run.calls io0
      /\ success t' = success tally0 /\ fail t' = fail tally0
      /\ exists preview, Run.stdout io' = Run.stdout io0 ++ [preview]
  | (Raise e, io') =>
      io' = io0 /\ e = TypeError /\ clear dry_update_args = false
      /\ bw_name alice_item = None
  end
  /\ match process_item (refusing_world "denied" None) dry_clear_args
            example_index tally0 alice_item io0 with
     | (Ok t', io') =>
         Run.calls io' = Run.calls io0
         /\ success t' = success tally0 /\ fail t' = fail tally0
         /\ exists preview, Run.stdout io' = Run.stdout io0 ++ [preview]
     | (Raise e, io') =>
         io' = io0 /\ e = TypeError /\ clear dry_clear_args = false
         /\ bw_name alice_item = None
     end.
Proof.
  split.
  - exact (dry_run_previews_only (refusing_world "denied" None) dry_update_args
             example_index tally0 alice_item io0
             (BwLogin (Some "alice") (Some "JBSWY3DPEHPK3PXP")) "JBSWY3DPEHPK3PXP" "X1"
             eq_refl eq_refl eq_refl eq_refl).
  - exact (dry_run_previews_only (refusing_world "denied" None) dry_clear_args
             example_index tally0 alice_item io0
             (BwLogin (Some "alice") (Some "JBSWY3DPEHPK3PXP")) "JBSWY3DPEHPK3PXP" "X1"
             eq_refl eq_refl eq_refl eq_refl).
Defined.

(** *** [subprocess.run] *)

Lemma run_outcome_exited w earlier argv text rc out err :
  Run.has_nul argv = false ->
  op_reply w earlier argv = Exited rc out err ->
  Run.run_outcome w earlier argv text
  = if (rc =? 0)%Z then Ok ((if text then Text else Bytes) out)
    else Raise (CalledProcessError ((if text then Text else Bytes) err)).
Proof. intros Hn Hr. unfold Run.run_outcome. rewrite Hn, Hr. reflexivity. Qed.

(** Under [text=True] the error of a failed command carries text. *)
Lemma run_outcome_text w earlier argv stderr :
  Run.run_outcome w earlier argv true = Raise (CalledProcessError stderr) ->
  exists err, stderr = Text err.
Proof.
  unfold Run.run_outcome. destruct (Run.has_nul argv); [discriminate|].
  destruct (op_reply w earlier argv) as [| |rc out err|rc out err];
    try discriminate; destruct (rc =? 0)%Z; try discriminate;
    intros [= <-]; eauto.
Qed.

(** [subprocess.run] never raises [SystemExit]. *)
Lemma run_outcome_no_exit w earlier argv text e :
  Run.run_outcome w earlier argv text = Raise e -> is_exit e = false.
Proof.
  unfold Run.run_outcome. destruct (Run.has_nul argv); [intros [= <-]; reflexivity|].
  destruct (op_reply w earlier argv) as [| |rc out err|rc out err];
    try (intros [= <-]; reflexivity).
  - destruct text; [intros [= <-]; reflexivity|].
    destruct (rc =? 0)%Z; [discriminate | intros [= <-]; reflexivity].
  - destruct (rc =? 0)%Z; [discriminate | intros [= <-]; reflexivity].
Qed.

(** What a live delete does, by the outcome of its command. *)
Lemma clear_totp_live w a t title bw_username op_id io :
  dry_run a = false ->
  clear_totp w a t title bw_username op_id io
  = let live := "    [LIVE] Deleting TOTP for: " +:+ who title bw_username in
    let calls' := Run.calls io ++ [op_edit_delete op_id] in
    match Run.run_outcome w (Run.calls io) (op_edit_delete op_id) true with
    | Ok _ => (Ok (incr_success t), Run.Io (Run.stdout io ++ [live]) calls')
    | Raise (CalledProcessError stderr) =>
        match str_in_captured "field not found" stderr with
        | Ok true =>
            (Ok t,
             Run.Io ((Run.stdout io ++ [live])
                     ++ ["    [INFO] Field already gone for: " +:+ fmt title])
                    calls')
        | Ok false =>
            (Ok (incr_fail t),
             Run.Io ((Run.stdout io ++ [live])
                     ++ ["    [FAIL] Could not delete " +:+ fmt title +:+ ": "
                         +:+ fmt_stripped stderr])
                    calls')
        | Raise e => (Raise e, Run.Io (Run.stdout io ++ [live]) calls')
        end
    | Raise e => (Raise e, Run.Io (Run.stdout io ++ [live]) calls')
    end.
Proof.
  intros Hdry. unfold clear_totp. rewrite Hdry. run_unfold.
  cbn [Run.calls Run.stdout].
  destruct (Run.run_outcome w (Run.calls io) (op_edit_delete op_id) true)
    as [out|[]]; try reflexivity.
  destruct (str_in_captured "field not found" stderr) as [[]|e]; reflexivity.
Qed.

(** What a live delete does when [op] exits with a non-zero code. *)
Lemma clear_totp_live_failed w a t title bw_username op_id io rc out err :
  dry_run a = false ->
  Run.has_nul (op_edit_delete op_id) = false ->
  op_reply w (Run.calls io) (op_edit_delete op_id) = Exited rc out err ->
  rc <> 0%Z ->
  clear_totp w a t title bw_username op_id io
  = (Ok (if Str.contains err "field not found" then t else incr_fail t),
     Run.Io (Run.stdout io
             ++ ["    [LIVE] Deleting TOTP for: " +:+ who title bw_username]
             ++ [if Str.contains err "field not found"
                 then "    [INFO] Field already gone for: " +:+ fmt title
                 else "    [FAIL] Could not delete " +:+ fmt title +:+ ": "
                      +:+ Str.strip err])
            (Run.calls io ++ [op_edit_delete op_id])).
Proof.
  intros Hdry Hn Hr Hrc. rewrite clear_totp_live by exact Hdry. cbv zeta.
  rewrite (run_outcome_exited _ _ _ _ _ _ _ Hn Hr).
  destruct (Z.eqb_spec rc 0) as [->|_]; [contradiction|].
  cbn [str_in_captured fmt_stripped].
  destruct (Str.contains err "field not found"); rewrite <- app_assoc; reflexivity.
Qed.

(** C4, as stated, fails: here the delete of a matched record fails, and
    not for a missing field (the [op] binary is gone when the edit is
    spawned); the failure counter is not incremented, the uncaught
    [FileNotFoundError] ends the run before the second record and before
    any summary. *)
Lemma unspawned_delete_is_not_counted :
  process_item (vanishing_world (Some "yes")) live_clear_args example_index
    tally0 alice_item io0
  = (Raise FileNotFoundError,
     Run.Io ["    [LIVE] Deleting TOTP for: Example (User: alice)"]
            [op_edit_delete "X1"])
  /\ fst (main (vanishing_world (Some "yes")) live_clear_args io0)
     = Raise FileNotFoundError
  /\ Run.calls (snd (main (vanishing_world (Some "yes")) live_clear_args io0))
     = [op_version; op_item_list "Private"; op_edit_delete "X1"].
Proof. vm_compute. repeat split; reflexivity. Qed.

(** C4 (amended): in live clear mode, when the delete command of a matched
    record exits with a non-zero code, the record is counted as a failure
    unless the error text contains "field not found"; in that case neither
    the success nor the failure counter moves, and the run goes on either
    way. A delete that fails in another way (a NUL in the identifier, the
    binary missing or not executable, output that is no text) is not
    counted at all: the exception is not caught and ends the run. *)
Theorem clear_delete_failure_counting
    w a op_lookup t item io login secret op_id :
  clear a = true ->
  dry_run a = false ->
  secret_of item = Some (login, secret) ->
  find_match (bw_name item) (login_username login) op_lookup = Some op_id ->
  Str.truthy op_id = true ->
  (forall rc out err,
     Run.has_nul (op_edit_delete op_id) = false ->
     op_reply w (Run.calls io) (op_edit_delete op_id) = Exited rc out err ->
     rc <> 0%Z ->
     exists t' io',
       process_item w a op_lookup t item io = (Ok t', io')
       /\ Run.calls io' = Run.calls io ++ [op_edit_delete op_id]
       /\ success t' = success t
       /\ (Str.contains err "field not found" = true -> fail t' = fail t)
       /\ (Str.contains err "field not found" = false -> fail t' = fail t + 1))
  /\ (forall e,
        Run.run_outcome w (Run.calls io) (op_edit_delete op_id) true = Raise e ->
        (forall stderr, e <> CalledProcessError stderr) ->
        exists io',
          process_item w a op_lookup t item io = (Raise e, io')
          /\ Run.calls io' = Run.calls io ++ [op_edit_delete op_id]).
Proof.
  intros Hc Hdry Hs Hm Ht.
  rewrite (process_item_matched _ _ _ _ _ _ _ _ Hs Hm Ht), Hc. split.
  - intros rc out err Hn Hr Hrc.
    rewrite (clear_totp_live_failed _ _ _ _ _ _ _ _ _ _ Hdry Hn Hr Hrc).
    eexists _, _. split; [reflexivity|]. cbn [Run.calls].
    destruct (Str.contains err "field not found"); simpl; repeat split; congruence.
  - intros e He Hne. rewrite clear_totp_live by exact Hdry. cbv zeta.
    rewrite He. destruct e; try (eexists; split; reflexivity).
    destruct (Hne stderr eq_refl).
Qed.

Lemma clear_delete_failure_counting_witness :
  (exists t' io',
     process_item (refusing_world "[ERROR] field not found" None) live_clear_args
       example_index tally0 alice_item io0 = (Ok t', io')
     /\ Run.calls io' = [op_edit_delete "X1"]
     /\ success t' = 0 /\ fail t' = 0)
  /\ (exists t' io',
        process_item (refusing_world "[ERROR] not signed in" None) live_clear_args
          example_index tally0 alice_item io0 = (Ok t', io')
        /\ Run.calls io' = [op_edit_delete "X1"]
        /\ success t' = 0 /\ fail t' = 1)
  /\ (exists io',
        process_item (vanishing_world None) live_clear_args
          example_index tally0 alice_item io0 = (Raise FileNotFoundError, io')
        /\ Run.calls io' = [op_edit_delete "X1"]).
Proof.
  split; [|split].
  - destruct (proj1 (clear_delete_failure_counting
                (refusing_world "[ERROR] field not found" None) live_clear_args
                example_index tally0 alice_item io0
                (BwLogin (Some "alice") (Some "JBSWY3DPEHPK3PXP")) "JBSWY3DPEHPK3PXP"
                "X1" eq_refl eq_refl eq_refl eq_refl eq_refl)
                1%Z "" "[ERROR] field not found" eq_refl eq_refl ltac:(discriminate))
      as (t' & io' & E & Hcalls & Hs & Hgone & _).
    exists t', io'. repeat split; [exact E | exact Hcalls | exact Hs | exact (Hgone eq_refl)].
  - destruct (proj1 (clear_delete_failure_counting
                (refusing_world "[ERROR] not signed in" None) live_clear_args
                example_index tally0 alice_item io0
                (BwLogin (Some "alice") (Some "JBSWY3DPEHPK3PXP")) "JBSWY3DPEHPK3PXP"
                "X1" eq_refl eq_refl eq_refl eq_refl eq_refl)
                1%Z "" "[ERROR] not signed in" eq_refl eq_refl ltac:(discriminate))
      as (t' & io' & E & Hcalls & Hs & _ & Hfail).
    exists t', io'. repeat split; [exact E | exact Hcalls | exact Hs | exact (Hfail eq_refl)].
  - exact (proj2 (clear_delete_failure_counting
                (vanishing_world None) live_clear_args
                example_index tally0 alice_item io0
                (BwLogin (Some "alice") (Some "JBSWY3DPEHPK3PXP")) "JBSWY3DPEHPK3PXP"
                "X1" eq_refl eq_refl eq_refl eq_refl eq_refl)
                FileNotFoundError eq_refl ltac:(discriminate)).
Defined.

(** C9: a source item whose login object is absent, or whose secret is
    absent or the empty string, is skipped: the counters (the discovered
    counter among them) and the orphan list stay as they are, nothing is
    printed and no command is spawned, whatever the index holds. *)
Theorem item_without_secret_skipped w a op_lookup t item io :
  bw_login_of item = None
  \/ (exists login, bw_login_of item = Some login
        /\ (login_totp login = None \/ login_totp login = Some "")) ->
  process_item w a op_lookup t item io = (Ok t, io).
Proof.
  intros H. rewrite process_item_skip; [reflexivity|].
  unfold secret_of. destruct H as [-> | (login & -> & [-> | ->])]; reflexivity.
Qed.

Lemma item_without_secret_skipped_witness :
  process_item (refusing_world "denied" None) live_update_args example_index
    tally0 (BwItem (Some "Example") None) io0 = (Ok tally0, io0)
  /\ process_item (refusing_world "denied" None) live_update_args example_index
       tally0 (BwItem (Some "Example") (Some (BwLogin (Some "alice") None))) io0
     = (Ok tally0, io0)
  /\ process_item (refusing_world "denied" None) live_update_args example_index
       tally0 (BwItem (Some "Example") (Some (BwLogin (Some "alice") (Some "")))) io0
     = (Ok tally0, io0).
Proof.
  split; [|split].
  - apply item_without_secret_skipped. left. reflexivity.
  - apply item_without_secret_skipped. right.
    exists (BwLogin (Some "alice") None). split; [reflexivity | left; reflexivity].
  - apply item_without_secret_skipped. right.
    exists (BwLogin (Some "alice") (Some "")). split; [reflexivity | right; reflexivity].
Defined.

(** Such items are the only ones skipped. *)
Lemma secret_of_None item :
  secret_of item = None <->
  bw_login_of item = None
  \/ (exists login, bw_login_of item = Some login
        /\ (login_totp login = None \/ login_totp login = Some "")).
Proof.
  unfold secret_of. destruct (bw_login_of item) as [login|]; [|tauto].
  destruct (login_totp login) as [[|c s]|] eqn:E; simpl; split;
    try discriminate; try tauto; eauto.
  intros [H | (l & [= <-] & [H | H])]; congruence.
Qed.

(** *** What the mutation applier returns *)

(** What a live update does, by the outcome of its command. *)
Lemma update_totp_live w a t title bw_username secret op_id io otp_value :
  dry_run a = false ->
  construct_otp_url secret title = Ok otp_value ->
  update_totp w a t title bw_username secret op_id io
  = let live := "    [LIVE] Updating: " +:+ who title bw_username in
    let calls' := Run.calls io ++ [op_edit_otp op_id otp_value] in
    match Run.run_outcome w (Run.calls io) (op_edit_otp op_id otp_value) true with
    | Ok _ => (Ok (incr_success t), Run.Io (Run.stdout io ++ [live]) calls')
    | Raise (CalledProcessError stderr) =>
        (Ok (incr_fail t),
         Run.Io ((Run.stdout io ++ [live])
                 ++ ["    [FAIL] Could not update " +:+ fmt title +:+ ": "
                     +:+ fmt_stripped stderr])
                calls')
    | Raise e => (Raise e, Run.Io (Run.stdout io ++ [live]) calls')
    end.
Proof.
  intros Hdry Hurl. unfold update_totp. rewrite Hurl, Hdry. run_unfold.
  cbn [Run.calls Run.stdout].
  destruct (Run.run_outcome w (Run.calls io) (op_edit_otp op_id otp_value) true)
    as [out|[]]; reflexivity.
Qed.

Lemma clear_totp_outcome w a t title bw_username op_id io :
  match clear_totp w a t title bw_username op_id io with
  | (Ok t', _) => applied t t'
  | (Raise e, _) => is_exit e = false
  end.
Proof.
  unfold applied. destruct (dry_run a) eqn:Hdry.
  - rewrite clear_totp_dry by exact Hdry. auto.
  - rewrite clear_totp_live by exact Hdry. cbv zeta.
    destruct (Run.run_outcome w (Run.calls io) (op_edit_delete op_id) true)
      as [out|e] eqn:E; [auto|].
    pose proof (run_outcome_no_exit _ _ _ _ _ E) as Hx.
    destruct e; try exact Hx.
    destruct (run_outcome_text _ _ _ _ E) as [err ->]. cbn [str_in_captured].
    destruct (Str.contains err "field not found"); auto.
Qed.

Lemma update_totp_outcome w a t title bw_username secret op_id io :
  match update_totp w a t title bw_username secret op_id io with
  | (Ok t', _) => applied t t'
  | (Raise e, _) => is_exit e = false
  end.
Proof.
  unfold applied.
  destruct (construct_otp_url secret title) as [otp_value|e] eqn:E.
  - destruct (dry_run a) eqn:Hdry.
    + rewrite update_totp_dry, E by exact Hdry. auto.
    + rewrite (update_totp_live _ _ _ _ _ _ _ _ _ Hdry E). cbv zeta.
      destruct (Run.run_outcome w (Run.calls io) (op_edit_otp op_id otp_value) true)
        as [out|e] eqn:Er; [auto|].
      pose proof (run_outcome_no_exit _ _ _ _ _ Er) as Hx.
      destruct e; try exact Hx. auto.
  - unfold update_totp. rewrite E. unfold Run.bind, Run.lift.
    apply construct_otp_url_raise in E as (-> & _ & _). reflexivity.
Qed.

Lemma applied_counts t t' :
  applied t t' ->
  found_in_bw t' = found_in_bw t /\ matched t' = matched t
  /\ orphans t' = orphans t.
Proof. intros [-> | [-> | ->]]; auto. Qed.

(** *** One record *)

Lemma process_item_counts w a op_lookup t item io login secret :
  secret_of item = Some (login, secret) ->
  match process_item w a op_lookup t item io with
  | (Ok t', io') =>
      found_in_bw t' = found_in_bw t + 1
      /\ (if truthy (find_match (bw_name item) (login_username login) op_lookup)
          then matched t' = matched t + 1 /\ orphans t' = orphans t
          else t' = add_orphan (who (bw_name item) (login_username login))
                      (incr_found t)
               /\ io' = io)
  | (Raise _, _) =>
      truthy (find_match (bw_name item) (login_username login) op_lookup) = true
  end.
Proof.
  intros Hs.
  destruct (truthy (find_match (bw_name item) (login_username login) op_lookup))
    eqn:Ht.
  - destruct (truthy_Some _ Ht) as (op_id & Hm & Hid).
    rewrite (process_item_matched _ _ _ _ _ _ _ _ Hs Hm Hid).
    destruct (clear a).
    + pose proof (clear_totp_outcome w a (incr_matched (incr_found t))
                    (bw_name item) (login_username login) op_id io) as H.
      destruct (clear_totp _ _ _ _ _ _ _) as [[t'|e] io']; [|reflexivity].
      apply applied_counts in H as (-> & -> & ->). auto.
    + pose proof (update_totp_outcome w a (incr_matched (incr_found t))
                    (bw_name item) (login_username login) secret op_id io) as H.
      destruct (update_totp _ _ _ _ _ _ _ _) as [[t'|e] io']; [|reflexivity].
      apply applied_counts in H as (-> & -> & ->). auto.
  - rewrite (process_item_orphan _ _ _ _ _ _ _ Hs Ht). simpl. auto.
Qed.

Lemma process_item_balanced w a op_lookup t item io t' io' :
  balanced t ->
  process_item w a op_lookup t item io = (Ok t', io') ->
  balanced t'.
Proof.
  unfold balanced. intros Hb E.
  destruct (secret_of item) as [[login secret]|] eqn:Hs.
  - pose proof (process_item_counts w a op_lookup t item io _ _ Hs) as H.
    rewrite E in H. destruct H as [Hf H].
    destruct (truthy _).
    + destruct H as [-> ->]. lia.
    + destruct H as [-> _]. simpl. rewrite length_app. simpl. lia.
  - rewrite (process_item_skip _ _ _ _ _ Hs) in E. injection E as <- _. exact Hb.
Qed.

(** *** The loop *)

Lemma for_each_invariant {A S} (P : S -> Prop) (body : S -> A -> Run.M S) :
  (forall acc x io acc' io', P acc -> body acc x io = (Ok acc', io') -> P acc') ->
  forall xs acc io acc' io',
    P acc -> Run.for_each xs body acc io = (Ok acc', io') -> P acc'.
Proof.
  intros Hbody xs. induction xs as [|x xs IH]; simpl; intros acc io acc' io' HP E.
  - injection E as <- _. exact HP.
  - unfold Run.bind in E.
    destruct (body acc x io) as [[acc1|e] io1] eqn:E1; [|discriminate].
    exact (IH _ _ _ _ (Hbody _ _ _ _ _ HP E1) E).
Qed.

(** A slip of the loop: [if op_id:] takes the empty string for "no match".
    Here the matcher does return the identifier of the vault item (the empty
    string), yet the record is listed under the unmatched items, against
    the comment above that branch. *)
Lemma empty_identifier_is_orphaned :
  find_match (bw_name alice_item) (Some "alice") empty_id_index = Some ""
  /\ process_item (refusing_world "denied" None) live_update_args empty_id_index
       tally0 alice_item io0
     = (Ok (Tally 1 0 0 0 ["Example (User: alice)"]), io0).
Proof. vm_compute. split; reflexivity. Qed.

(** A run of [main] that ends normally ends with the tally of its loop. *)
Lemma main_tally w a io t io' :
  main w a io = (Ok t, io') ->
  exists op_lookup items io1 io2,
    process_items w a op_lookup items io1 = (Ok t, io2).
Proof.
  unfold main.
  assert (Hstop : forall (msg : string) code io0,
             (Run.print msg ;; Run.sys_exit code : Run.M tally) io0 <> (Ok t, io')).
  { intros msg code io0. run_unfold. discriminate. }
  destruct (license a); [intros E; destruct (Hstop _ _ _ E)|].
  destruct (file a) as [path|]; [|intros E; destruct (Hstop _ _ _ E)].
  destruct (Str.truthy path); [|intros E; destruct (Hstop _ _ _ E)].
  destruct (negb (path_exists w path)); [intros E; destruct (Hstop _ _ _ E)|].
  unfold Run.bind at 1.
  destruct ((if negb (dry_run a) then confirm_live w a else Run.ret tt) io)
    as [[[]|e] io1]; [|discriminate].
  unfold migrate. unfold Run.bind at 1.
  destruct (get_op_items w OP_VAULT_NAME io1) as [[op_lookup|e] io2]; [|discriminate].
  unfold Run.bind at 1.
  destruct (json_load w path) as [msg|bw_data].
  - unfold Run.bind at 1. run_unfold. discriminate.
  - unfold Run.ret at 1. unfold Run.bind at 1. unfold Run.print at 1.
    unfold Run.bind at 1.
    destruct (process_items w a op_lookup (default [] (bw_items bw_data)) _)
      as [[t1|e] io3] eqn:E; [|discriminate].
    unfold Run.bind at 1.
    destruct (print_summary a _ t1 io3) as [[[]|e] io4]; [|discriminate].
    unfold Run.ret. intros [= <- <-]. eauto.
Qed.

(** ** [main] *)

Lemma confirm_live_outcome w a io :
  match confirm_live w a io with
  | (r, io') =>
      Run.calls io' = Run.calls io
      /\ match r with
         | Ok _ => confirmed w
         | Raise e => ~ confirmed w /\ (e = SystemExit 0 \/ e = EOFError)
         end
  end.
Proof.
  unfold confirm_live, confirmed. run_unfold.
  destruct (clear a); cbn [Run.calls Run.stdout];
    (destruct (input_line w) as [line|];
     [ case_bool_decide as Hyes; cbn [negb Run.calls];
       [ split; [reflexivity | eauto]
       | split; [reflexivity | split; [intros (l & [= <-] & Hl); contradiction | auto]] ]
     | split; [reflexivity | split; [intros (l & Hl & _); discriminate | auto]] ]).
Qed.

(** C8: in live mode nothing is handed to [subprocess.run] (neither the
    index query nor a mutation) before the operator has typed a line that,
    lowercased, is "yes"; without it the program leaves with [SystemExit]
    (or dies of [EOFError] at the prompt) and the command log is as it was. *)
Theorem live_run_needs_confirmation w a io :
  dry_run a = false ->
  match main w a io with
  | (r, io') =>
      (Run.calls io' <> Run.calls io -> confirmed w)
      /\ (~ confirmed w ->
          Run.calls io' = Run.calls io
          /\ exists e, r = Raise e
                       /\ (e = SystemExit 0 \/ e = SystemExit 1 \/ e = EOFError))
  end.
Proof.
  intros Hlive. unfold main.
  assert (Hstop : forall (msg : string) code,
             (code = 0 \/ code = 1) ->
             match (Run.print msg ;; Run.sys_exit code : Run.M tally) io with
             | (r, io') =>
                 (Run.calls io' <> Run.calls io -> confirmed w)
                 /\ (~ confirmed w ->
                     Run.calls io' = Run.calls io
                     /\ exists e, r = Raise e
                          /\ (e = SystemExit 0 \/ e = SystemExit 1 \/ e = EOFError))
             end).
  { intros msg code Hcode. run_unfold. cbn [Run.calls].
    split; [intros H; destruct (H eq_refl)|]. intros _. split; [reflexivity|].
    eexists. split; [reflexivity|]. destruct Hcode as [-> | ->]; auto. }
  destruct (license a); [apply Hstop; auto|].
  destruct (file a) as [path|]; [|apply Hstop; auto].
  destruct (Str.truthy path); [|apply Hstop; auto].
  destruct (path_exists w path); cbn [negb]; [|apply Hstop; auto].
  rewrite Hlive. cbn [negb]. unfold Run.bind at 1.
  pose proof (confirm_live_outcome w a io) as Hc.
  destruct (confirm_live w a io) as [[[]|e] io1].
  - destruct Hc as [_ Hyes]. destruct (migrate w a path io1) as [r io'].
    split; [auto | contradiction].
  - destruct Hc as [Hcalls [Hno He]].
    split; [congruence|]. intros _. split; [exact Hcalls|].
    exists e. split; [reflexivity|]. tauto.
Qed.

Lemma live_run_needs_confirmation_witness :
  Run.calls (snd (main (refusing_world "denied" (Some "no")) live_update_args io0)) = []
  /\ exists e,
       fst (main (refusing_world "denied" (Some "no")) live_update_args io0) = Raise e
       /\ (e = SystemExit 0 \/ e = SystemExit 1 \/ e = EOFError).
Proof.
  pose proof (live_run_needs_confirmation (refusing_world "denied" (Some "no"))
                live_update_args io0 eq_refl) as H.
  destruct (main (refusing_world "denied" (Some "no")) live_update_args io0)
    as [r io'].
  destruct H as [_ H]. apply H.
  intros (line & Hline & Hyes). simpl in Hline. injection Hline as <-.
  discriminate Hyes.
Defined.

(** A confirmed live run and a dry run of the sample data, end to end. *)
Example main_live_clear_run :
  main (refusing_world "[ERROR] field not found" (Some "YES")) live_clear_args io0
  = (Ok (Tally 1 1 0 0 []),
     Run.Io
       [Str.nl +:+ Str.times "!" 60;
        "WARNING: LIVE MODE ACTIVE";
        Str.times "!" 60;
        "1. Ensure you have backed up your 1Password data before proceeding.";
        "2. You are running in CLEANUP mode (-c).";
        "   This will PERMANENTLY DELETE the 'one-time password' field";
        "   from matched items.";
        Str.nl +:+ "Type 'yes' to continue: ";
        "--> Fetching items from 1Password vault: 'Private'...";
        "--> Starting CLEARING/DELETING (LIVE)...";
        "    [LIVE] Deleting TOTP for: Example (User: alice)";
        "    [INFO] Field already gone for: Example";
        Str.nl +:+ Str.times "=" 40;
        "SUMMARY (CLEARING/DELETING)";
        Str.times "=" 40;
        "Bitwarden Items w/ TOTP: 1";
        "Items Matched (Title+User): 1";
        "Successful Actions:      0";
        "Failed Actions:          0";
        Str.times "=" 40 +:+ Str.nl]
       [op_version; op_item_list "Private"; op_edit_delete "X1"]).
Proof. vm_compute. reflexivity. Qed.

Example main_dry_update_run :
  main (refusing_world "denied" None) dry_update_args io0
  = (Ok (Tally 1 1 0 0 []),
     Run.Io
       ["--> Fetching items from 1Password vault: 'Private'...";
        "--> Starting UPDATING (DRY RUN)...";
        "    [DRY RUN] Would update: Example (User: alice)";
        Str.nl +:+ Str.times "=" 40;
        "SUMMARY (UPDATING)";
        Str.times "=" 40;
        "Bitwarden Items w/ TOTP: 1";
        "Items Matched (Title+User): 1";
        "Mode: DRY RUN (No changes made)";
        Str.times "=" 40 +:+ Str.nl]
       [op_version; op_item_list "Private"]).
Proof. vm_compute. reflexivity. Qed.

(** ** Dry runs as a whole *)



(** * More of the code *)

(** ** The lookup of [get_op_items] *)

Lemma add_op_item_lookup (lookup : gmap (option string) (list candidate))
    (item : op_item) (title : option string) :
  add_op_item lookup item !! title
  = if decide (op_title item = title)
    then Some (default [] (lookup !! title) ++ [to_candidate item])
    else lookup !! title.
Proof.
  unfold add_op_item, to_candidate.
  destruct (decide (op_title item = title)) as [<-|Hne].
  - destruct (lookup !! op_title item) as [l|] eqn:E.
    + rewrite lookup_insert_eq, E. reflexivity.
    + rewrite !lookup_insert_eq. reflexivity.
  - destruct (lookup !! op_title item) as [l|] eqn:E.
    + rewrite lookup_insert_ne by assumption. reflexivity.
    + rewrite !lookup_insert_ne by assumption. reflexivity.
Qed.

Lemma foldl_add_op_item_lookup (items : list op_item)
    (lookup : gmap (option string) (list candidate)) (title : option string) :
  foldl add_op_item lookup items !! title
  = match titled title items with
    | [] => lookup !! title
    | found => Some (default [] (lookup !! title) ++ map to_candidate found)
    end.
Proof.
  revert lookup. unfold titled.
  induction items as [|item items IH]; intros lookup; simpl; [reflexivity|].
  rewrite IH, add_op_item_lookup.
  destruct (decide (op_title item = title)) as [Ht|Ht].
  - rewrite filter_cons_True by exact Ht. simpl.
    destruct (filter _ items) as [|x l].
    + reflexivity.
    + simpl. rewrite <- app_assoc. reflexivity.
  - rewrite filter_cons_False by exact Ht. reflexivity.
Qed.

Lemma build_lookup_titled (items : list op_item) (title : option string) :
  build_lookup items !! title
  = match titled title items with
    | [] => None
    | found => Some (map to_candidate found)
    end.
Proof.
  unfold build_lookup. rewrite foldl_add_op_item_lookup, lookup_empty.
  destruct (titled title items); reflexivity.
Qed.

(** X1: the lookup maps a title to the candidates of exactly the listed
    items that carry this title, in listing order, each with its identifier
    and its username ([null] or missing read as the empty string); a title
    no listed item carries is not a key, so no key has an empty list. *)
Theorem build_lookup_groups_by_title (items : list op_item) (title : option string) :
  (titled title items = [] -> build_lookup items !! title = None)
  /\ (titled title items <> [] ->
      build_lookup items !! title = Some (map to_candidate (titled title items)))
  /\ (forall candidates,
        build_lookup items !! title = Some candidates ->
        candidates <> []
        /\ length candidates = length (titled title items)).
Proof.
  rewrite build_lookup_titled.
  destruct (titled title items) as [|x l] eqn:E.
  - split; [reflexivity|]. split; [congruence | discriminate].
  - split; [discriminate|]. split; [reflexivity|].
    intros candidates [= <-]. split; [discriminate|].
    simpl. rewrite length_map. reflexivity.
Qed.

Lemma build_lookup_groups_by_title_witness :
  build_lookup sample_listing !! Some "Other" = None
  /\ build_lookup sample_listing !! Some "Example"
     = Some [Candidate (Some "X0") "Alice"; Candidate (Some "X1") "alice";
             Candidate (Some "X2") "alice"]
  /\ build_lookup sample_listing !! Some "Mail" = Some [Candidate (Some "M1") ""].
Proof.
  split; [|split].
  - apply (proj1 (build_lookup_groups_by_title sample_listing (Some "Other"))).
    reflexivity.
  - apply (proj1 (proj2 (build_lookup_groups_by_title sample_listing (Some "Example")))).
    discriminate.
  - apply (proj1 (proj2 (build_lookup_groups_by_title sample_listing (Some "Mail")))).
    discriminate.
Defined.

(** ** The matcher on the lookup of a listing *)

Lemma scan_candidates_titled (items : list op_item) (title : option string)
    (target : string) :
  scan_candidates (map to_candidate (titled title items)) target
  = match list_find (fun item => op_title item = title
                                 /\ default "" (op_additional_information item) = target)
            items with
    | Some (_, item) => op_id item
    | None => None
    end.
Proof.
  unfold titled. induction items as [|item items IH]; [reflexivity|].
  cbn [list_find].
  destruct (decide (op_title item = title)) as [Ht|Ht].
  - rewrite filter_cons_True by exact Ht. simpl.
    case_bool_decide as Hu.
    + rewrite decide_True by (split; assumption). reflexivity.
    + rewrite decide_False by tauto. rewrite IH.
      destruct (list_find _ items) as [[i x]|]; reflexivity.
  - rewrite filter_cons_False by exact Ht.
    rewrite decide_False by tauto. rewrite IH.
    destruct (list_find _ items) as [[i x]|]; reflexivity.
Qed.

Lemma find_match_on_listing (items : list op_item) (title bw_username : option string) :
  find_match title bw_username (build_lookup items)
  = match list_find (fun item => op_title item = title
                                 /\ default "" (op_additional_information item)
                                    = default "" bw_username)
            items with
    | Some (_, item) => op_id item
    | None => None
    end.
Proof.
  unfold find_match. rewrite build_lookup_titled, target_user_normalize.
  unfold normalize.
  destruct (titled title items) as [|x l] eqn:E.
  - pose proof (scan_candidates_titled items title (default "" bw_username)) as H.
    rewrite E in H. exact H.
  - rewrite <- E. apply scan_candidates_titled.
Qed.

Lemma list_find_first {A} (P : A -> Prop) `{forall x, Decision (P x)}
    (before : list A) (x : A) (after : list A) :
  Forall (fun y => ~ P y) before -> P x ->
  list_find P (before ++ x :: after) = Some (length before, x).
Proof.
  intros Hb Hx. apply list_find_Some. split; [|split].
  - apply list_lookup_middle. reflexivity.
  - exact Hx.
  - intros j y Hj Hlt. rewrite lookup_app_l in Hj by exact Hlt.
    rewrite Forall_lookup in Hb. exact (Hb j y Hj).
Qed.

(** X2: on the lookup built from a listing, a record is matched to the
    first listed item, in listing order, that has the record's title and
    whose username equals the record's, where a missing or [null] username
    counts as the empty string on both sides; the result is that item's
    identifier. When no listed item qualifies, the record is unmatched. *)
Theorem find_match_picks_first_listed (items : list op_item)
    (title bw_username : option string) :
  (forall before item after,
     items = before ++ item :: after ->
     Forall (fun other => ~ same_entry title bw_username other) before ->
     same_entry title bw_username item ->
     find_match title bw_username (build_lookup items) = op_id item)
  /\ (Forall (fun other => ~ same_entry title bw_username other) items ->
      find_match title bw_username (build_lookup items) = None).
Proof.
  split.
  - intros before item after -> Hb Hi.
    rewrite find_match_on_listing.
    change (fun item0 => op_title item0 = title
                         /\ default "" (op_additional_information item0)
                            = default "" bw_username)
      with (same_entry title bw_username).
    rewrite (list_find_first _ before item after Hb Hi). reflexivity.
  - intros Hn. rewrite find_match_on_listing.
    change (fun item0 => op_title item0 = title
                         /\ default "" (op_additional_information item0)
                            = default "" bw_username)
      with (same_entry title bw_username).
    destruct (list_find _ items) as [[i x]|] eqn:E; [|reflexivity].
    apply list_find_Some in E as (Hl & HP & _).
    rewrite Forall_lookup in Hn. destruct (Hn _ _ Hl HP).
Qed.

Lemma find_match_picks_first_listed_witness :
  find_match (Some "Example") (Some "alice") (build_lookup sample_listing) = Some "X1"
  /\ find_match (Some "Mail") (Some "") (build_lookup sample_listing) = Some "M1"
  /\ find_match (Some "Mail") (Some "alice") (build_lookup sample_listing) = None.
Proof.
  split; [|split].
  - apply (proj1 (find_match_picks_first_listed sample_listing
                    (Some "Example") (Some "alice"))
             [OpItem (Some "Example") (Some "X0") (Some "Alice");
              OpItem (Some "Mail") (Some "M1") None]
             (OpItem (Some "Example") (Some "X1") (Some "alice"))
             [OpItem (Some "Example") (Some "X2") (Some "alice")]).
    + reflexivity.
    + repeat constructor; intros [H1 H2]; simpl in *; discriminate.
    + split; reflexivity.
  - apply (proj1 (find_match_picks_first_listed sample_listing
                    (Some "Mail") (Some ""))
             [OpItem (Some "Example") (Some "X0") (Some "Alice")]
             (OpItem (Some "Mail") (Some "M1") None)
             [OpItem (Some "Example") (Some "X1") (Some "alice");
              OpItem (Some "Example") (Some "X2") (Some "alice")]).
    + reflexivity.
    + repeat constructor; intros [H1 H2]; simpl in *; discriminate.
    + split; reflexivity.
  - apply (proj2 (find_match_picks_first_listed sample_listing
                    (Some "Mail") (Some "alice"))).
    repeat constructor; intros [H1 H2]; simpl in *; discriminate.
Defined.

(** ** [get_op_items] *)

Lemma get_op_items_outcome w vault_name io :
  match get_op_items w vault_name io with
  | (Ok lookup, io') =>
      exists probe out items,
        Run.run_outcome w (Run.calls io) op_version false = Ok probe
        /\ Run.run_outcome w (Run.calls io ++ [op_version])
             (op_item_list vault_name) true = Ok (Text out)
        /\ json_loads w out = inr items
        /\ lookup = build_lookup items
        /\ Run.calls io' = Run.calls io ++ [op_version; op_item_list vault_name]
  | (Raise e, io') =>
      (Run.calls io' = Run.calls io ++ [op_version]
       \/ Run.calls io' = Run.calls io ++ [op_version; op_item_list vault_name])
      /\ forall code,
           e = SystemExit code ->
           code = 1
           /\ exists fetching msg,
                Run.stdout io' = Run.stdout io ++ [fetching; msg]
  end.
Proof.
  unfold get_op_items. run_unfold. cbn [Run.calls Run.stdout].
  destruct (Run.run_outcome w (Run.calls io) op_version false) as [probe|e0] eqn:E0.
  2:{ pose proof (run_outcome_no_exit _ _ _ _ _ E0) as Hx.
      destruct e0; unfold Run.raise; cbn [Run.calls Run.stdout]; (split; [auto|]);
        try (intros code [= ->]; fail); try discriminate Hx;
        intros code [= <-]; (split; [reflexivity|]);
        rewrite <- app_assoc; eauto. }
  cbn [Run.calls Run.stdout].
  destruct (Run.run_outcome w (Run.calls io ++ [op_version])
              (op_item_list vault_name) true) as [result|e1] eqn:E1.
  2:{ pose proof (run_outcome_no_exit _ _ _ _ _ E1) as Hx.
      destruct e1; unfold Run.raise; cbn [Run.calls Run.stdout];
        rewrite <- !app_assoc;
        (split; [auto|]); try (intros code [= ->]; fail); try discriminate Hx;
        intros code [= <-]; (split; [reflexivity|]); eauto. }
  assert (Hres : exists out, result = Text out).
  { revert E1. unfold Run.run_outcome.
    destruct (Run.has_nul _); [discriminate|].
    destruct (op_reply w _ _) as [| |rc out err|rc out err]; try discriminate;
      destruct (rc =? 0)%Z; try discriminate; intros [= <-]; eauto. }
  destruct Hres as [out ->]. cbn [payload].
  destruct (json_loads w out) as [bad|items] eqn:Ej.
  - destruct bad; unfold Run.raise; cbn [bad_json_exn Run.calls];
      rewrite <- app_assoc; (split; [auto|]); intros code Hc; discriminate Hc.
  - cbn [Run.calls]. rewrite <- app_assoc. eauto 10.
Qed.

Lemma get_op_items_ok w vault_name io probe out items :
  Run.run_outcome w (Run.calls io) op_version false = Ok probe ->
  Run.run_outcome w (Run.calls io ++ [op_version]) (op_item_list vault_name) true
  = Ok (Text out) ->
  json_loads w out = inr items ->
  get_op_items w vault_name io
  = (Ok (build_lookup items),
     Run.Io (Run.stdout io
             ++ ["--> Fetching items from 1Password vault: '" +:+ vault_name +:+ "'..."])
            (Run.calls io ++ [op_version; op_item_list vault_name])).
Proof.
  intros E0 E1 Ej. unfold get_op_items. run_unfold. cbn [Run.calls Run.stdout].
  rewrite E0. cbn [Run.calls Run.stdout]. rewrite E1.
  cbn [payload]. rewrite Ej. cbn [Run.calls Run.stdout].
  rewrite <- app_assoc. reflexivity.
Qed.

(** X3: [get_op_items] returns a lookup exactly when both calls of
    [subprocess.run] return (the version probe and the list query exit with
    code 0, and the listing is text) and the listing parses to a list of
    items; it has then spawned these two commands and nothing else, and the
    lookup is the one built from the parsed items. When it returns no
    lookup, it has spawned the probe alone or the probe and the query, and
    if it leaves through [sys.exit], the code is 1 and one diagnostic line
    follows the "Fetching" line. *)
Theorem get_op_items_all_or_nothing w vault_name io :
  (forall probe out items,
     Run.run_outcome w (Run.calls io) op_version false = Ok probe ->
     Run.run_outcome w (Run.calls io ++ [op_version]) (op_item_list vault_name) true
     = Ok (Text out) ->
     json_loads w out = inr items ->
     exists io',
       get_op_items w vault_name io = (Ok (build_lookup items), io')
       /\ Run.calls io' = Run.calls io ++ [op_version; op_item_list vault_name])
  /\ match get_op_items w vault_name io with
     | (Ok lookup, io') =>
         exists probe out items,
           Run.run_outcome w (Run.calls io) op_version false = Ok probe
           /\ Run.run_outcome w (Run.calls io ++ [op_version])
                (op_item_list vault_name) true = Ok (Text out)
           /\ json_loads w out = inr items
           /\ lookup = build_lookup items
           /\ Run.calls io' = Run.calls io ++ [op_version; op_item_list vault_name]
     | (Raise e, io') =>
         (Run.calls io' = Run.calls io ++ [op_version]
          \/ Run.calls io' = Run.calls io ++ [op_version; op_item_list vault_name])
         /\ forall code,
              e = SystemExit code ->
              code = 1
              /\ exists fetching msg,
                   Run.stdout io' = Run.stdout io ++ [fetching; msg]
     end.
Proof.
  split; [|apply get_op_items_outcome].
  intros probe out items E0 E1 Ej.
  rewrite (get_op_items_ok _ _ _ _ _ _ E0 E1 Ej). eauto.
Qed.

Lemma get_op_items_all_or_nothing_witness :
  exists io',
    get_op_items (uniform_world 1 "denied" sample_listing [] None) "Private" io0
    = (Ok (build_lookup sample_listing), io')
    /\ Run.calls io' = Run.calls io0 ++ [op_version; op_item_list "Private"].
Proof.
  exact (proj1 (get_op_items_all_or_nothing
                  (uniform_world 1 "denied" sample_listing [] None) "Private" io0)
           (Bytes "[]") "[]" sample_listing eq_refl eq_refl eq_refl).
Defined.

(** Without the binary, or when a query fails, the run ends at once. *)
Example get_op_items_without_op :
  get_op_items no_op_world "Private" io0
  = (Raise (SystemExit 1),
     Run.Io ["--> Fetching items from 1Password vault: 'Private'...";
             "Error: 'op' command not found. Is the 1Password CLI installed?"]
            [op_version]).
Proof. reflexivity. Qed.

(** ** The label and the secret in [construct_otp_url] *)

Lemma all_chars_app p a b :
  all_chars p (a +:+ b) = all_chars p a && all_chars p b.
Proof.
  induction a as [|c a IH]; simpl; [reflexivity|].
  rewrite IH, andb_assoc. reflexivity.
Qed.

Lemma all_chars_has p s c :
  all_chars p s = true -> Str.has_char s c = true -> p c = true.
Proof.
  induction s as [|x s IH]; simpl; [discriminate|].
  intros [Hx Hs]%andb_true_iff [Hc|Hc]%orb_true_iff.
  - apply Ascii.eqb_eq in Hc as <-. exact Hx.
  - exact (IH Hs Hc).
Qed.

Lemma append_assoc (a b c : string) : (a +:+ b) +:+ c = a +:+ (b +:+ c).
Proof.
  induction a as [|x a IH]; [reflexivity|].
  change (String x ((a +:+ b) +:+ c) = String x (a +:+ (b +:+ c))).
  f_equal. exact IH.
Qed.

Lemma append_empty_r (a : string) : a +:+ "" = a.
Proof.
  induction a as [|x a IH]; [reflexivity|].
  change (String x (a +:+ "") = String x a). f_equal. exact IH.
Qed.

Lemma quote_from_bytes_app xs ys :
  Urllib.quote_from_bytes (xs ++ ys)
  = Urllib.quote_from_bytes xs +:+ Urllib.quote_from_bytes ys.
Proof.
  induction xs as [|x xs IH]; [reflexivity|].
  cbn [Urllib.quote_from_bytes app]. rewrite IH, append_assoc. reflexivity.
Qed.

Lemma quote_str_cons c s :
  Urllib.quote_str (String c s)
  = Urllib.quote_from_bytes (Urllib.utf8 c) +:+ Urllib.quote_str s.
Proof. unfold Urllib.quote_str. simpl. apply quote_from_bytes_app. Qed.

(** One character, quoted: only unreserved characters, '/' and '%'. *)
Lemma quote_char_label c :
  all_chars label_char (Urllib.quote_from_bytes (Urllib.utf8 c)) = true.
Proof. destruct c as [[] [] [] [] [] [] [] []]; vm_compute; reflexivity. Qed.

(** One unreserved character, quoted, is itself. *)
Lemma quote_char_unreserved c :
  unreserved c = true ->
  Urllib.quote_from_bytes (Urllib.utf8 c) = String c EmptyString.
Proof.
  destruct c as [[] [] [] [] [] [] [] []]; vm_compute;
    first [reflexivity | discriminate].
Qed.

Lemma quote_str_label s : all_chars label_char (Urllib.quote_str s) = true.
Proof.
  induction s as [|c s IH]; [reflexivity|].
  rewrite quote_str_cons, all_chars_app, quote_char_label, IH. reflexivity.
Qed.

Lemma label_char_not_delimiter c :
  label_char c = true ->
  c <> "?"%char /\ c <> "&"%char /\ c <> "="%char /\ c <> "#"%char
  /\ c <> " "%char.
Proof. intros H. repeat split; intros ->; vm_compute in H; discriminate H. Qed.

(** X4: in the URI composed for a plain secret, the part between
    "otpauth://totp/" and "?secret=" is made of unreserved characters, '/'
    and '%' only, whatever the label: it holds no '?', '&', '=', '#' or
    blank, so a title cannot add or end a query parameter. *)
Theorem label_cannot_break_uri (secret label : string) :
  otpauth_prefixed secret = false ->
  exists encoded_label clean_secret,
    construct_otp_url secret (Some label)
    = Ok ("otpauth://totp/" +:+ encoded_label +:+ "?secret=" +:+ clean_secret
          +:+ "&issuer=BitwardenMigration")
    /\ all_chars label_char encoded_label = true
    /\ forall c,
         Str.has_char encoded_label c = true ->
         c <> "?"%char /\ c <> "&"%char /\ c <> "="%char /\ c <> "#"%char
         /\ c <> " "%char.
Proof.
  intros H. eexists _, _. split; [exact (construct_otp_url_compose _ _ H)|].
  split; [apply quote_str_label|].
  intros c Hc. apply label_char_not_delimiter.
  exact (all_chars_has _ _ _ (quote_str_label label) Hc).
Qed.

Lemma label_cannot_break_uri_witness :
  exists encoded_label clean_secret,
    construct_otp_url "JBSW Y3DP" (Some "a&b=c?d #e")
    = Ok ("otpauth://totp/" +:+ encoded_label +:+ "?secret=" +:+ clean_secret
          +:+ "&issuer=BitwardenMigration")
    /\ all_chars label_char encoded_label = true
    /\ forall c,
         Str.has_char encoded_label c = true ->
         c <> "?"%char /\ c <> "&"%char /\ c <> "="%char /\ c <> "#"%char
         /\ c <> " "%char.
Proof. exact (label_cannot_break_uri "JBSW Y3DP" "a&b=c?d #e" eq_refl). Defined.

(** X5: a label made of unreserved characters and '/' only is embedded
    unchanged: [quote] returns it as it is. *)
Theorem quote_keeps_unreserved (label : string) :
  all_chars unreserved label = true -> quote (Some label) = Ok label.
Proof.
  intros H. unfold quote. f_equal.
  induction label as [|c s IH]; [reflexivity|].
  simpl in H. apply andb_true_iff in H as [Hc Hs].
  rewrite quote_str_cons, (quote_char_unreserved c Hc), (IH Hs). reflexivity.
Qed.

Lemma quote_keeps_unreserved_witness :
  quote (Some "GitHub/work_account-2.0~x") = Ok "GitHub/work_account-2.0~x".
Proof. exact (quote_keeps_unreserved "GitHub/work_account-2.0~x" eq_refl). Defined.

(** *** White space around the secret *)

Lemma lstrip_blank s : blank s -> Str.lstrip s = EmptyString.
Proof.
  unfold blank. induction s as [|c s IH]; simpl; [reflexivity|].
  intros [Hc Hs]%andb_true_iff. rewrite Hc. exact (IH Hs).
Qed.

Lemma rstrip_blank s : blank s -> Str.rstrip s = EmptyString.
Proof.
  unfold blank. induction s as [|c s IH]; simpl; [reflexivity|].
  intros [Hc Hs]%andb_true_iff. rewrite (IH Hs), Hc. reflexivity.
Qed.

Lemma lstrip_app_blank pre s : blank pre -> Str.lstrip (pre +:+ s) = Str.lstrip s.
Proof.
  unfold blank. induction pre as [|c pre IH]; [reflexivity|].
  simpl all_chars. intros [Hc Hs]%andb_true_iff.
  change (String c pre +:+ s) with (String c (pre +:+ s)).
  simpl. rewrite Hc. exact (IH Hs).
Qed.

Lemma rstrip_app_blank s post : blank post -> Str.rstrip (s +:+ post) = Str.rstrip s.
Proof.
  intros Hp. induction s as [|c s IH].
  - exact (rstrip_blank post Hp).
  - change (String c s +:+ post) with (String c (s +:+ post)).
    simpl. rewrite IH. reflexivity.
Qed.

Lemma strip_app_blank_r s post : blank post -> Str.strip (s +:+ post) = Str.strip s.
Proof.
  intros Hp. unfold Str.strip. induction s as [|c s IH].
  - change ("" +:+ post) with post. rewrite (lstrip_blank post Hp). reflexivity.
  - change (String c s +:+ post) with (String c (s +:+ post)).
    simpl. destruct (Str.isspace c); [exact IH|].
    change (String c (s +:+ post)) with (String c s +:+ post).
    apply rstrip_app_blank, Hp.
Qed.

Lemma strip_surrounded pre s post :
  blank pre -> blank post -> Str.strip (pre +:+ s +:+ post) = Str.strip s.
Proof.
  intros Hpre Hpost. unfold Str.strip at 1. rewrite lstrip_app_blank by exact Hpre.
  exact (strip_app_blank_r s post Hpost).
Qed.

Lemma construct_otp_url_of_strip secret label :
  construct_otp_url secret label = construct_otp_url (Str.strip secret) label.
Proof. unfold construct_otp_url. rewrite strip_idem. reflexivity. Qed.

(** X6: white space around the secret does not count: with any run of white
    space (blanks, TAB, line ends, ...) put before and after it, a secret
    gives the same result, for any label. *)
Theorem construct_otp_url_ignores_surrounding_space pre secret post label :
  blank pre -> blank post ->
  construct_otp_url (pre +:+ secret +:+ post) label
  = construct_otp_url secret label.
Proof.
  intros Hpre Hpost.
  rewrite (construct_otp_url_of_strip (pre +:+ secret +:+ post)).
  rewrite (strip_surrounded _ _ _ Hpre Hpost).
  symmetry. apply construct_otp_url_of_strip.
Qed.

Lemma construct_otp_url_ignores_surrounding_space_witness :
  construct_otp_url (blank_pad +:+ "JBSW Y3DP" +:+ Str.nl) (Some "Example")
  = construct_otp_url "JBSW Y3DP" (Some "Example").
Proof.
  exact (construct_otp_url_ignores_surrounding_space
           blank_pad "JBSW Y3DP" Str.nl (Some "Example") eq_refl eq_refl).
Defined.

(** X7: a secret made of white space only (and not empty) is not skipped:
    the record carries a secret for the loop, and the URI composed for it
    has an empty secret parameter. *)
Theorem blank_secret_gives_empty_parameter
    (name username : option string) (secret label : string) :
  blank secret -> secret <> EmptyString ->
  secret_of (BwItem name (Some (BwLogin username (Some secret))))
  = Some (BwLogin username (Some secret), secret)
  /\ construct_otp_url secret (Some label)
     = Ok ("otpauth://totp/" +:+ Urllib.quote_str label
           +:+ "?secret=&issuer=BitwardenMigration").
Proof.
  intros Hb Hne. split.
  - unfold secret_of. simpl. destruct secret; [contradiction | reflexivity].
  - unfold construct_otp_url, Str.strip.
    rewrite (lstrip_blank secret Hb). reflexivity.
Qed.

Lemma blank_secret_gives_empty_parameter_witness :
  secret_of (BwItem (Some "Example") (Some (BwLogin None (Some blank_pad))))
  = Some (BwLogin None (Some blank_pad), blank_pad)
  /\ construct_otp_url blank_pad (Some "Example")
     = Ok "otpauth://totp/Example?secret=&issuer=BitwardenMigration".
Proof.
  exact (blank_secret_gives_empty_parameter (Some "Example") None blank_pad
           "Example" eq_refl ltac:(discriminate)).
Defined.

(** ** One record, case by case *)

Lemma update_totp_untitled w a t bw_username secret op_id io :
  otpauth_prefixed secret = false ->
  update_totp w a t None bw_username secret op_id io = (Raise TypeError, io).
Proof.
  intros H. unfold update_totp, construct_otp_url.
  fold (otpauth_prefixed secret). rewrite H. reflexivity.
Qed.

Lemma is_matched_Some op_lookup item :
  is_matched op_lookup item = true ->
  exists login secret op_id,
    secret_of item = Some (login, secret)
    /\ find_match (bw_name item) (login_username login) op_lookup = Some op_id
    /\ Str.truthy op_id = true.
Proof.
  unfold is_matched. destruct (secret_of item) as [[login secret]|]; [|discriminate].
  intros (op_id & Hm & Hid)%truthy_Some. eauto 6.
Qed.

Lemma secret_of_login item login secret :
  secret_of item = Some (login, secret) -> bw_login_of item = Some login.
Proof.
  unfold secret_of. destruct (bw_login_of item) as [l|]; [|discriminate].
  destruct (login_totp l) as [s|]; [|discriminate].
  destruct (Str.truthy s); [|discriminate]. intros [= <- _]. reflexivity.
Qed.

Lemma edit_outcome_ok a w earlier argv t t' :
  edit_outcome a w earlier argv t = Ok t' ->
  t' = incr_success t \/ (clear a = true /\ t' = t) \/ t' = incr_fail t.
Proof.
  unfold edit_outcome.
  destruct (Run.run_outcome w earlier argv true) as [out|e]; [intros [= <-]; auto|].
  destruct e; try discriminate.
  destruct (clear a); [|intros [= <-]; auto].
  destruct (str_in_captured "field not found" stderr) as [[]|e];
    [intros [= <-]; auto | intros [= <-]; auto | discriminate].
Qed.


Lemma clear_totp_live_outcome w a t title bw_username op_id io :
  dry_run a = false -> clear a = true ->
  exists lines,
    clear_totp w a t title bw_username op_id io
    = (edit_outcome a w (Run.calls io) (op_edit_delete op_id) t,
       Run.Io (Run.stdout io ++ lines) (Run.calls io ++ [op_edit_delete op_id])).
Proof.
  intros Hdry Hc. rewrite clear_totp_live by exact Hdry. cbv zeta.
  unfold edit_outcome. rewrite Hc.
  destruct (Run.run_outcome w (Run.calls io) (op_edit_delete op_id) true)
    as [out|e]; [eauto|].
  destruct e; eauto.
  destruct (str_in_captured "field not found" stderr) as [[]|e];
    rewrite <- ?app_assoc; eauto.
Qed.

Lemma update_totp_live_outcome w a t title bw_username secret op_id io otp_value :
  dry_run a = false -> clear a = false ->
  construct_otp_url secret title = Ok otp_value ->
  exists lines,
    update_totp w a t title bw_username secret op_id io
    = (edit_outcome a w (Run.calls io) (op_edit_otp op_id otp_value) t,
       Run.Io (Run.stdout io ++ lines)
              (Run.calls io ++ [op_edit_otp op_id otp_value])).
Proof.
  intros Hdry Hc E. rewrite (update_totp_live _ _ _ _ _ _ _ _ _ Hdry E). cbv zeta.
  unfold edit_outcome. rewrite Hc.
  destruct (Run.run_outcome w (Run.calls io) (op_edit_otp op_id otp_value) true)
    as [out|e]; [eauto|].
  destruct e; rewrite <- ?app_assoc; eauto.
Qed.

(** Everything the loop body can do with one record. *)
Lemma process_item_cases w a op_lookup t item io :
  match process_item w a op_lookup t item io with
  | (r, io') =>
      (carries_secret item = false /\ r = Ok t /\ io' = io)
      \/ (is_orphan op_lookup item = true
          /\ r = Ok (add_orphan (descriptor item) (incr_found t)) /\ io' = io)
      \/ (is_matched op_lookup item = true /\ dry_run a = true
          /\ Run.calls io' = Run.calls io
          /\ r = Ok (incr_matched (incr_found t)))
      \/ (is_matched op_lookup item = true /\ clear a = false
          /\ bw_name item = None /\ r = Raise TypeError /\ io' = io)
      \/ (is_matched op_lookup item = true /\ dry_run a = false
          /\ exists argv,
               edit_for a op_lookup item argv
               /\ Run.calls io' = Run.calls io ++ [argv]
               /\ (exists lines, Run.stdout io' = Run.stdout io ++ lines)
               /\ r = edit_outcome a w (Run.calls io) argv
                        (incr_matched (incr_found t)))
  end.
Proof.
  destruct (secret_of item) as [[login secret]|] eqn:Hs.
  2:{ rewrite (process_item_skip _ _ _ _ _ Hs). left.
      unfold carries_secret. rewrite Hs. auto. }
  destruct (truthy (find_match (bw_name item) (login_username login) op_lookup))
    eqn:Ht.
  2:{ rewrite (process_item_orphan _ _ _ _ _ _ _ Hs Ht). right. left.
      unfold is_orphan, is_matched, carries_secret, descriptor.
      rewrite Hs, Ht, (secret_of_login _ _ _ Hs). auto. }
  assert (Hm : is_matched op_lookup item = true).
  { unfold is_matched. rewrite Hs. exact Ht. }
  destruct (truthy_Some _ Ht) as (op_id & Hf & Hid).
  rewrite (process_item_matched _ _ _ _ _ _ _ _ Hs Hf Hid).
  destruct (dry_run a) eqn:Hdry.
  - destruct (clear a) eqn:Hc.
    + rewrite clear_totp_dry by exact Hdry. right. right. left. auto.
    + rewrite update_totp_dry by exact Hdry.
      destruct (construct_otp_url secret (bw_name item)) as [url|e] eqn:E.
      * right. right. left. auto.
      * apply construct_otp_url_raise in E as (-> & Hn & _).
        right. right. right. left. auto.
  - destruct (clear a) eqn:Hc.
    + destruct (clear_totp_live_outcome w a (incr_matched (incr_found t))
                  (bw_name item) (login_username login) op_id io Hdry Hc)
        as (lines & ->).
      do 4 right. split; [exact Hm|]. split; [reflexivity|].
      exists (op_edit_delete op_id). cbn [Run.calls Run.stdout].
      split; [|eauto]. exists login, secret, op_id. rewrite Hc. auto.
    + destruct (construct_otp_url secret (bw_name item)) as [url|e] eqn:E.
      * destruct (update_totp_live_outcome w a (incr_matched (incr_found t))
                    (bw_name item) (login_username login) secret op_id io url
                    Hdry Hc E) as (lines & ->).
        do 4 right. split; [exact Hm|]. split; [reflexivity|].
        exists (op_edit_otp op_id url). cbn [Run.calls Run.stdout].
        split; [|eauto]. exists login, secret, op_id. rewrite Hc. eauto 6.
      * apply construct_otp_url_raise in E as (-> & Hn & Hp).
        rewrite Hn. rewrite update_totp_untitled by exact Hp.
        right. right. right. left. rewrite <- Hn. auto.
Qed.

Lemma edit_for_unique a op_lookup item argv argv' :
  edit_for a op_lookup item argv -> edit_for a op_lookup item argv' -> argv = argv'.
Proof.
  intros (login & secret & op_id & Hs & Hf & _ & H)
         (login' & secret' & op_id' & Hs' & Hf' & _ & H').
  rewrite Hs in Hs'. injection Hs' as <- <-.
  rewrite Hf in Hf'. injection Hf' as <-.
  destruct (clear a); [congruence|].
  destruct H as (url & E & ->), H' as (url' & E' & ->). congruence.
Qed.

Lemma edit_for_matched a op_lookup item argv :
  edit_for a op_lookup item argv -> is_matched op_lookup item = true.
Proof.
  intros (login & secret & op_id & Hs & Hf & Hid & _).
  unfold is_matched. rewrite Hs, Hf. exact Hid.
Qed.

(** What the loop body does once its command is known. *)
Lemma process_item_live w a op_lookup t item io argv :
  dry_run a = false ->
  edit_for a op_lookup item argv ->
  match process_item w a op_lookup t item io with
  | (r, io') =>
      Run.calls io' = Run.calls io ++ [argv]
      /\ r = edit_outcome a w (Run.calls io) argv (incr_matched (incr_found t))
  end.
Proof.
  intros Hdry (login & secret & op_id & Hs & Hf & Hid & He).
  rewrite (process_item_matched _ _ _ _ _ _ _ _ Hs Hf Hid).
  destruct (clear a) eqn:Hc.
  - subst argv.
    destruct (clear_totp_live_outcome w a (incr_matched (incr_found t))
                (bw_name item) (login_username login) op_id io Hdry Hc)
      as (lines & ->). auto.
  - destruct He as (url & E & ->).
    destruct (update_totp_live_outcome w a (incr_matched (incr_found t))
                (bw_name item) (login_username login) secret op_id io url
                Hdry Hc E) as (lines & ->). auto.
Qed.

(** X8: in live mode, in clear mode as in update mode, a matched record
    whose command (with no NUL in its arguments) runs, gives output that is
    text and exits with code 0 is counted as discovered, matched and
    succeeded, and not as failed; exactly that command has been spawned. *)
Theorem live_exit_zero_counts_success w a op_lookup t item io argv out err :
  dry_run a = false ->
  edit_for a op_lookup item argv ->
  Run.has_nul argv = false ->
  op_reply w (Run.calls io) argv = Exited 0 out err ->
  exists io',
    process_item w a op_lookup t item io
    = (Ok (incr_success (incr_matched (incr_found t))), io')
    /\ Run.calls io' = Run.calls io ++ [argv].
Proof.
  intros Hdry He Hn Hr.
  pose proof (process_item_live w a op_lookup t item io argv Hdry He) as H.
  destruct (process_item w a op_lookup t item io) as [r io'].
  destruct H as (Hcalls & ->). unfold edit_outcome.
  rewrite (run_outcome_exited _ _ _ _ _ _ _ Hn Hr). eauto.
Qed.

Lemma live_exit_zero_counts_success_witness :
  exists io',
    process_item (uniform_world 0 "" sample_listing [alice_item] None)
      live_update_args (build_lookup sample_listing) tally0 alice_item io0
    = (Ok (incr_success (incr_matched (incr_found tally0))), io')
    /\ Run.calls io'
       = Run.calls io0
         ++ [op_edit_otp "X1"
               "otpauth://totp/Example?secret=JBSWY3DPEHPK3PXP&issuer=BitwardenMigration"].
Proof.
  apply (live_exit_zero_counts_success
           (uniform_world 0 "" sample_listing [alice_item] None)
           live_update_args (build_lookup sample_listing) tally0 alice_item io0
           (op_edit_otp "X1"
              "otpauth://totp/Example?secret=JBSWY3DPEHPK3PXP&issuer=BitwardenMigration")
           "" "").
  - reflexivity.
  - exists (BwLogin (Some "alice") (Some "JBSWY3DPEHPK3PXP")), "JBSWY3DPEHPK3PXP", "X1".
    split; [reflexivity|]. split; [reflexivity|]. split; [reflexivity|].
    simpl. eexists. split; reflexivity.
  - reflexivity.
  - reflexivity.
Defined.

(** X9: in live update mode a non-zero exit of the edit command (spawned,
    with output that is text) counts as one failure whatever the error
    text, also when it says "field not found"; only clear mode has the
    benign case. The loop body returns, so the loop goes on. *)
Theorem update_failure_always_counted w a op_lookup t item io argv rc out err :
  clear a = false ->
  dry_run a = false ->
  edit_for a op_lookup item argv ->
  Run.has_nul argv = false ->
  op_reply w (Run.calls io) argv = Exited rc out err ->
  rc <> 0%Z ->
  exists io',
    process_item w a op_lookup t item io
    = (Ok (incr_fail (incr_matched (incr_found t))), io')
    /\ Run.calls io' = Run.calls io ++ [argv].
Proof.
  intros Hc Hdry He Hn Hr Hrc.
  pose proof (process_item_live w a op_lookup t item io argv Hdry He) as H.
  destruct (process_item w a op_lookup t item io) as [r io'].
  destruct H as (Hcalls & ->). unfold edit_outcome.
  rewrite (run_outcome_exited _ _ _ _ _ _ _ Hn Hr), Hc.
  destruct (Z.eqb_spec rc 0) as [->|_]; [contradiction|]. eauto.
Qed.

Lemma update_failure_always_counted_witness :
  exists io',
    process_item
      (uniform_world 1 "[ERROR] field not found" sample_listing [alice_item] None)
      live_update_args (build_lookup sample_listing) tally0 alice_item io0
    = (Ok (incr_fail (incr_matched (incr_found tally0))), io')
    /\ Run.calls io'
       = Run.calls io0
         ++ [op_edit_otp "X1"
               "otpauth://totp/Example?secret=JBSWY3DPEHPK3PXP&issuer=BitwardenMigration"].
Proof.
  apply (update_failure_always_counted
           (uniform_world 1 "[ERROR] field not found" sample_listing [alice_item] None)
           live_update_args (build_lookup sample_listing) tally0 alice_item io0
           (op_edit_otp "X1"
              "otpauth://totp/Example?secret=JBSWY3DPEHPK3PXP&issuer=BitwardenMigration")
           1%Z "" "[ERROR] field not found").
  - reflexivity.
  - reflexivity.
  - exists (BwLogin (Some "alice") (Some "JBSWY3DPEHPK3PXP")), "JBSWY3DPEHPK3PXP", "X1".
    split; [reflexivity|]. split; [reflexivity|]. split; [reflexivity|].
    simpl. eexists. split; reflexivity.
  - reflexivity.
  - reflexivity.
  - discriminate.
Defined.

(** ** The loop as a whole *)

Lemma edit_for_is_mutation a op_lookup item argv :
  edit_for a op_lookup item argv -> is_mutation argv = true.
Proof.
  intros (login & secret & op_id & _ & _ & _ & H).
  destruct (clear a); [subst argv; reflexivity|].
  destruct H as (url & _ & ->). reflexivity.
Qed.

(** The commands of one record: none, or the one edit of its match. *)
Lemma process_item_calls w a op_lookup t item io :
  exists cs,
    Run.calls (snd (process_item w a op_lookup t item io)) = Run.calls io ++ cs
    /\ Forall (edit_for a op_lookup item) cs
    /\ (dry_run a = true -> cs = []).
Proof.
  pose proof (process_item_cases w a op_lookup t item io) as H.
  destruct (process_item w a op_lookup t item io) as [r io']. cbn [snd].
  destruct H as [(_ & _ & ->) | [(_ & _ & ->) | [(_ & _ & Hc & _) | [H | H]]]].
  - exists []. rewrite app_nil_r. auto.
  - exists []. rewrite app_nil_r. auto.
  - exists []. rewrite app_nil_r. auto.
  - destruct H as (_ & _ & _ & _ & ->). exists []. rewrite app_nil_r. auto.
  - destruct H as (_ & Hdry & argv & He & Hcalls & _).
    exists [argv]. split; [exact Hcalls|]. split; [auto|]. congruence.
Qed.

Lemma for_each_calls {A S} (P : A -> list string -> Prop) (body : S -> A -> Run.M S)
    (xs : list A) :
  (forall acc x io,
     exists cs, Run.calls (snd (body acc x io)) = Run.calls io ++ cs
                /\ Forall (P x) cs) ->
  forall acc io,
    exists cs,
      Run.calls (snd (Run.for_each xs body acc io)) = Run.calls io ++ cs
      /\ Forall (fun argv => exists x, x ∈ xs /\ P x argv) cs.
Proof.
  intros Hbody. induction xs as [|x xs IH]; intros acc io.
  - exists []. simpl. rewrite app_nil_r. auto.
  - destruct (Hbody acc x io) as (cs1 & Hc1 & HP1).
    simpl. unfold Run.bind.
    destruct (body acc x io) as [[acc1|e] io1]; cbn [snd] in *.
    + destruct (IH acc1 io1) as (cs2 & Hc2 & HP2).
      exists (cs1 ++ cs2). rewrite Hc2, Hc1, app_assoc. split; [reflexivity|].
      apply Forall_app. split.
      * eapply Forall_impl; [exact HP1|]. intros argv HP. exists x.
        split; [left|exact HP].
      * eapply Forall_impl; [exact HP2|]. intros argv (y & Hy & HP). exists y.
        split; [right; exact Hy|exact HP].
    + exists cs1. split; [exact Hc1|].
      eapply Forall_impl; [exact HP1|]. intros argv HP. exists x.
      split; [left|exact HP].
Qed.

Lemma process_items_calls w a op_lookup items io :
  exists cs,
    Run.calls (snd (process_items w a op_lookup items io)) = Run.calls io ++ cs
    /\ Forall (fun argv => exists item,
                 item ∈ items /\ edit_for a op_lookup item argv) cs.
Proof.
  unfold process_items.
  apply (for_each_calls (edit_for a op_lookup) (process_item w a op_lookup)).
  intros acc x io1.
  destruct (process_item_calls w a op_lookup acc x io1) as (cs & Hc & HP & _).
  eauto.
Qed.

(** X11: whatever the loop spawns is an edit of a match: each command in
    its log is the delete (clear mode) or the otp update (update mode, with
    the URI built from the record's own secret and title) of the vault item
    that [find_match] returns for one of the export's records, a record
    that carries a secret. The loop spawns nothing else, however it ends. *)
Theorem loop_edits_only_matches (w : world) (a : args)
    (op_lookup : gmap (option string) (list candidate)) (items : list bw_item)
    (io : Run.io) :
  exists cs,
    Run.calls (snd (process_items w a op_lookup items io)) = Run.calls io ++ cs
    /\ Forall (fun argv =>
                 is_mutation argv = true
                 /\ exists item login secret op_id,
                      item ∈ items
                      /\ secret_of item = Some (login, secret)
                      /\ find_match (bw_name item) (login_username login) op_lookup
                         = Some op_id
                      /\ op_id <> EmptyString
                      /\ ((clear a = true /\ argv = op_edit_delete op_id)
                          \/ (clear a = false
                              /\ exists otp_value,
                                   construct_otp_url secret (bw_name item)
                                   = Ok otp_value
                                   /\ argv = op_edit_otp op_id otp_value))) cs.
Proof.
  destruct (process_items_calls w a op_lookup items io) as (cs & Hc & HP).
  exists cs. split; [exact Hc|].
  eapply Forall_impl; [exact HP|]. intros argv (item & Hin & He).
  split; [exact (edit_for_is_mutation _ _ _ _ He)|].
  destruct He as (login & secret & op_id & Hs & Hf & Hid & H).
  exists item, login, secret, op_id. repeat (split; [assumption|]).
  split; [intros ->; discriminate Hid|].
  destruct (clear a); [left | right]; auto.
Qed.

Lemma for_each_invariant_io {A S} (P : S -> Run.io -> Prop) (body : S -> A -> Run.M S) :
  (forall acc x io acc' io',
     P acc io -> body acc x io = (Ok acc', io') -> P acc' io') ->
  forall xs acc io acc' io',
    P acc io -> Run.for_each xs body acc io = (Ok acc', io') -> P acc' io'.
Proof.
  intros Hbody xs. induction xs as [|x xs IH]; simpl; intros acc io acc' io' HP E.
  - injection E as <- <-. exact HP.
  - unfold Run.bind in E.
    destruct (body acc x io) as [[acc1|e] io1] eqn:E1; [|discriminate].
    exact (IH _ _ _ _ (Hbody _ _ _ _ _ HP E1) E).
Qed.

Lemma process_item_live_books w a op_lookup io0' t item io t' io' :
  dry_run a = false ->
  live_books a io0' t io ->
  process_item w a op_lookup t item io = (Ok t', io') ->
  live_books a io0' t' io'.
Proof.
  intros Hdry (cs & Hcs & Hlen & Hle & Heq) E.
  pose proof (process_item_cases w a op_lookup t item io) as H.
  rewrite E in H.
  destruct H as [(_ & [= ->] & ->) | [(_ & [= ->] & ->) | [(_ & Hd & _) | [H | H]]]].
  - exists cs. auto.
  - exists cs. auto.
  - congruence.
  - destruct H as (_ & _ & _ & H & _). discriminate H.
  - destruct H as (_ & _ & argv & _ & Hcalls & _ & Hr).
    exists (cs ++ [argv]). rewrite Hcalls, Hcs, app_assoc, length_app.
    split; [reflexivity|]. symmetry in Hr.
    destruct (edit_outcome_ok _ _ _ _ _ _ Hr) as [-> | [[Hc ->] | ->]]; simpl.
    + split; [lia|]. split; [lia|]. intros Hc. specialize (Heq Hc). lia.
    + split; [lia|]. split; [lia|]. congruence.
    + split; [lia|]. split; [lia|]. intros Hc. specialize (Heq Hc). lia.
Qed.

(** X12: a live loop that reaches its end has spawned exactly one command
    per matched record (as many commands as the matched counter says); the
    successes and failures together never exceed the matched records, and
    in update mode they add up to them: every matched record is then either
    a success or a failure. *)
Theorem live_loop_books (w : world) (a : args)
    (op_lookup : gmap (option string) (list candidate))
    (items : list bw_item) (io : Run.io) (t : tally) (io' : Run.io) :
  dry_run a = false ->
  process_items w a op_lookup items io = (Ok t, io') ->
  exists cs,
    Run.calls io' = Run.calls io ++ cs
    /\ length cs = matched t
    /\ success t + fail t <= matched t
    /\ (clear a = false -> success t + fail t = matched t).
Proof.
  intros Hdry E.
  apply (for_each_invariant_io (live_books a io) (process_item w a op_lookup)
           (fun acc x io1 acc' io1' =>
              process_item_live_books w a op_lookup io acc x io1 acc' io1' Hdry)
           items tally0 io t io'); [|exact E].
  exists []. rewrite app_nil_r. simpl. repeat split; lia.
Qed.

Lemma live_loop_books_witness :
  exists cs,
    Run.calls
      (snd (process_items (uniform_world 1 "denied" sample_listing [] None)
              live_update_args (build_lookup sample_listing)
              [alice_item; bob_item] io0))
    = Run.calls io0 ++ cs
    /\ length cs = 1
    /\ 0 + 1 <= 1
    /\ (clear live_update_args = false -> 0 + 1 = 1).
Proof.
  exact (live_loop_books (uniform_world 1 "denied" sample_listing [] None)
           live_update_args (build_lookup sample_listing)
           [alice_item; bob_item] io0
           (Tally 2 1 0 1 ["Example (User: bob)"])
           (snd (process_items (uniform_world 1 "denied" sample_listing [] None)
                   live_update_args (build_lookup sample_listing)
                   [alice_item; bob_item] io0))
           eq_refl eq_refl).
Defined.

(** *** What the counters count *)

Lemma is_matched_carries op_lookup item :
  is_matched op_lookup item = true -> carries_secret item = true.
Proof.
  unfold is_matched, carries_secret. destruct (secret_of item) as [[]|]; auto.
Qed.

Ltac counts_done :=
  simpl; rewrite ?app_nil_r; (split; [lia|]); (split; [lia|]); reflexivity.

Lemma for_each_counts w a op_lookup items :
  forall t0 io t io',
    Run.for_each items (process_item w a op_lookup) t0 io = (Ok t, io') ->
    found_in_bw t = found_in_bw t0 + length (List.filter carries_secret items)
    /\ matched t = matched t0 + length (List.filter (is_matched op_lookup) items)
    /\ orphans t
       = orphans t0 ++ map descriptor (List.filter (is_orphan op_lookup) items).
Proof.
  induction items as [|item items IH]; intros t0 io t io' E; simpl in E.
  - injection E as <- _. counts_done.
  - unfold Run.bind in E.
    pose proof (process_item_cases w a op_lookup t0 item io) as H.
    destruct (process_item w a op_lookup t0 item io) as [[t1|e] io1];
      [|discriminate E].
    destruct (IH _ _ _ _ E) as (Hf & Hm & Ho). clear IH E.
    assert (Hstep :
      found_in_bw t1 = found_in_bw t0 + (if carries_secret item then 1 else 0)
      /\ matched t1 = matched t0 + (if is_matched op_lookup item then 1 else 0)
      /\ orphans t1 = orphans t0 ++ (if is_orphan op_lookup item
                                     then [descriptor item] else [])).
    { destruct H as [(Hc & [= ->] & _) | [(Hor & [= ->] & _) | [H | [H | H]]]].
      - unfold is_orphan, is_matched, carries_secret in *.
        destruct (secret_of item) as [[]|]; [discriminate|]. counts_done.
      - rewrite Hor. unfold is_orphan in Hor.
        apply andb_true_iff in Hor as [Hc Hnm]. rewrite Hc.
        apply negb_true_iff in Hnm. rewrite Hnm. counts_done.
      - destruct H as (Hm' & _ & _ & [= ->]).
        unfold is_orphan. rewrite Hm', (is_matched_carries _ _ Hm'). counts_done.
      - destruct H as (_ & _ & _ & H & _). discriminate H.
      - destruct H as (Hm' & _ & argv & _ & _ & _ & Hr).
        unfold is_orphan. rewrite Hm', (is_matched_carries _ _ Hm').
        symmetry in Hr.
        destruct (edit_outcome_ok _ _ _ _ _ _ Hr) as [-> | [[_ ->] | ->]];
          counts_done. }
    destruct Hstep as (Hf1 & Hm1 & Ho1).
    rewrite Hf, Hm, Ho, Hf1, Hm1, Ho1. simpl.
    destruct (carries_secret item), (is_matched op_lookup item),
      (is_orphan op_lookup item); simpl; rewrite <- ?app_assoc; simpl;
      (split; [lia|]); (split; [lia|]); reflexivity.
Qed.

(** X13: when the loop reaches its end, the discovered counter is the
    number of export records with a login whose secret is a non-empty
    string, the matched counter the number of those for which the matcher
    returns a non-empty identifier, and the orphan list holds, in export
    order, one line "title (User: username)" for each of the others. *)
Theorem loop_counts_the_export (w : world) (a : args)
    (op_lookup : gmap (option string) (list candidate))
    (items : list bw_item) (io : Run.io) (t : tally) (io' : Run.io) :
  process_items w a op_lookup items io = (Ok t, io') ->
  found_in_bw t = length (List.filter carries_secret items)
  /\ matched t = length (List.filter (is_matched op_lookup) items)
  /\ orphans t = map descriptor (List.filter (is_orphan op_lookup) items).
Proof. intros E. exact (for_each_counts w a op_lookup items tally0 io t io' E). Qed.

Lemma loop_counts_the_export_witness :
  found_in_bw (Tally 2 1 0 1 ["Example (User: bob)"]) = 2
  /\ matched (Tally 2 1 0 1 ["Example (User: bob)"]) = 1
  /\ orphans (Tally 2 1 0 1 ["Example (User: bob)"]) = ["Example (User: bob)"].
Proof.
  exact (loop_counts_the_export (uniform_world 1 "denied" sample_listing [] None)
           live_update_args (build_lookup sample_listing)
           [alice_item; BwItem (Some "Skipped") None; bob_item] io0
           (Tally 2 1 0 1 ["Example (User: bob)"])
           (snd (process_items (uniform_world 1 "denied" sample_listing [] None)
                   live_update_args (build_lookup sample_listing)
                   [alice_item; BwItem (Some "Skipped") None; bob_item] io0))
           eq_refl).
Defined.

(** ** [main] as a whole *)

Lemma for_each_print_ok (f : string -> string) (os : list string) io :
  exists io',
    Run.for_each os (fun _ o => Run.print (f o)) tt io = (Ok tt, io')
    /\ Run.calls io' = Run.calls io.
Proof.
  revert io. induction os as [|o os IH]; intros io; simpl.
  - eexists. split; reflexivity.
  - unfold Run.bind, Run.print at 1.
    destruct (IH {| Run.stdout := Run.stdout io ++ [f o]; Run.calls := Run.calls io |})
      as (io' & E & Hc).
    exists io'. split; [exact E | exact Hc].
Qed.

Lemma print_summary_ok a action_label t io :
  exists io',
    print_summary a action_label t io = (Ok tt, io')
    /\ Run.calls io' = Run.calls io.
Proof.
  unfold print_summary.
  unfold Run.bind at 1, Run.print at 1. unfold Run.bind at 1, Run.print at 1.
  unfold Run.bind at 1, Run.print at 1. unfold Run.bind at 1, Run.print at 1.
  unfold Run.bind at 1, Run.print at 1. unfold Run.bind at 1.
  match goal with
  | |- context [(if negb (dry_run a) then ?x else ?y) ?s] =>
      assert (H1 : exists io1, (if negb (dry_run a) then x else y) s = (Ok tt, io1)
                               /\ Run.calls io1 = Run.calls io)
  end.
  { destruct (dry_run a); cbn [negb]; run_unfold; eexists; split; reflexivity. }
  destruct H1 as (io1 & -> & Hc1). unfold Run.bind at 1.
  match goal with
  | |- context [(match orphans t with [] => ?x | _ :: _ => ?y end) io1] =>
      assert (H2 : exists io2,
                 (match orphans t with [] => x | _ :: _ => y end) io1 = (Ok tt, io2)
                 /\ Run.calls io2 = Run.calls io1)
  end.
  { destruct (orphans t) as [|o os] eqn:Eo.
    - eexists. split; reflexivity.
    - unfold Run.bind at 1, Run.print at 1. unfold Run.bind at 1, Run.print at 1.
      destruct (for_each_print_ok (fun o => " - " +:+ o) (o :: os)
                  {| Run.stdout := (Run.stdout io1 ++ [Str.times "-" 40])
                                   ++ ["MISSING / UNMATCHED ITEMS:"];
                     Run.calls := Run.calls io1 |}) as (io2 & E & Hc).
      exists io2. split; [exact E | exact Hc]. }
  destruct H2 as (io2 & -> & Hc2). unfold Run.print.
  eexists. split; [reflexivity|]. cbn [Run.calls]. congruence.
Qed.


Lemma op_item_list_read_only vault_name : read_only (op_item_list vault_name).
Proof. reflexivity. Qed.

(** [main] from the index query on: either it stops before the loop, or it
    ends as its loop ends. *)
Lemma migrate_shape w a path io :
  match migrate w a path io with
  | (r, io') =>
      (exists e cs,
         r = Raise e /\ e <> SystemExit 0
         /\ Run.calls io' = Run.calls io ++ op_version :: cs
         /\ Forall read_only cs)
      \/ (exists op_lookup items io1,
            Run.calls io1
            = Run.calls io ++ [op_version; op_item_list OP_VAULT_NAME]
            /\ r = fst (process_items w a op_lookup items io1)
            /\ Run.calls io'
               = Run.calls (snd (process_items w a op_lookup items io1)))
  end.
Proof.
  unfold migrate. unfold Run.bind at 1.
  pose proof (get_op_items_outcome w OP_VAULT_NAME io) as Hg.
  destruct (get_op_items w OP_VAULT_NAME io) as [[op_lookup|e] io1].
  2:{ left. destruct Hg as [Hcalls He]. exists e.
      assert (Hne : e <> SystemExit 0).
      { intros ->. destruct (He 0 eq_refl) as [H0 _]. discriminate H0. }
      destruct Hcalls as [Hc | Hc].
      - exists []. rewrite Hc. repeat split; [exact Hne | constructor].
      - exists [op_item_list OP_VAULT_NAME]. rewrite Hc.
        repeat split; [exact Hne | repeat constructor]. }
  destruct Hg as (probe & out & listing & _ & _ & _ & _ & Hc1).
  unfold Run.bind at 1.
  destruct (json_load w path) as [msg|bw_data].
  { left. run_unfold. cbn [Run.calls]. exists (SystemExit 1), [op_item_list OP_VAULT_NAME].
    rewrite Hc1. repeat split; [discriminate|]. repeat constructor. }
  unfold Run.ret at 1. unfold Run.bind at 1, Run.print at 1. unfold Run.bind at 1.
  match goal with
  | |- context [process_items w a op_lookup ?items ?s] =>
      set (items_processed := items); set (io2 := s)
  end.
  assert (Hc2 : Run.calls io2
                = Run.calls io ++ [op_version; op_item_list OP_VAULT_NAME])
    by exact Hc1.
  destruct (process_items w a op_lookup items_processed io2) as [[t|e] io3] eqn:E.
  - unfold Run.bind at 1.
    destruct (print_summary_ok a (if clear a then "CLEARING/DELETING" else "UPDATING")
                t io3) as (io4 & -> & Hc4).
    unfold Run.ret. right. exists op_lookup, items_processed, io2.
    rewrite E. auto.
  - right. exists op_lookup, items_processed, io2. rewrite E. auto.
Qed.







(** X16: in live mode, with a file that exists, typing "yes" in any case of
    its letters is enough for the run to go on: the version probe is
    spawned next. *)
Theorem confirmed_live_run_queries_vault w a io path :
  dry_run a = false ->
  license a = false ->
  file a = Some path ->
  path <> EmptyString ->
  path_exists w path = true ->
  confirmed w ->
  exists rest,
    Run.calls (snd (main w a io)) = Run.calls io ++ op_version :: rest.
Proof.
  intros Hdry Hl Hf Hp He Hyes. unfold main. rewrite Hl, Hf, He, Hdry.
  destruct path as [|c path]; [contradiction|]. cbn [Str.truthy Str.is_empty negb].
  unfold Run.bind at 1.
  pose proof (confirm_live_outcome w a io) as Hc.
  destruct (confirm_live w a io) as [[[]|e] io1].
  2:{ destruct Hc as [_ [Hno _]]. contradiction. }
  destruct Hc as [Hc1 _].
  pose proof (migrate_shape w a (String c path) io1) as Hm.
  destruct (migrate w a (String c path) io1) as [r io']. cbn [snd].
  destruct Hm as [(e & cs & _ & _ & Hc & _)
                 | (op_lookup & items & io2 & Hc2 & _ & Hc)].
  - exists cs. rewrite Hc, Hc1. reflexivity.
  - destruct (process_items_calls w a op_lookup items io2) as (cs & Hcs & _).
    exists (op_item_list OP_VAULT_NAME :: cs).
    rewrite Hc, Hcs, Hc2, Hc1, <- app_assoc. reflexivity.
Qed.

Lemma confirmed_live_run_queries_vault_witness :
  exists rest,
    Run.calls (snd (main (uniform_world 0 "" sample_listing [alice_item]
                            (Some "Yes")) live_update_args io0))
    = Run.calls io0 ++ op_version :: rest.
Proof.
  apply (confirmed_live_run_queries_vault
           (uniform_world 0 "" sample_listing [alice_item] (Some "Yes"))
           live_update_args io0 "export.json").
  - reflexivity.
  - reflexivity.
  - reflexivity.
  - discriminate.
  - reflexivity.
  - exists "Yes". split; reflexivity.
Defined.

(** *** The commands of a live loop, in order *)

Lemma edit_for_command a op_lookup item argv :
  edit_for a op_lookup item argv -> edit_command a op_lookup item = Some argv.
Proof.
  intros (login & secret & op_id & Hs & Hf & Hid & H).
  unfold edit_command. rewrite Hs, Hf, Hid.
  destruct (clear a); [congruence|].
  destruct H as (url & -> & ->). reflexivity.
Qed.

Lemma unmatched_no_command a op_lookup item :
  is_matched op_lookup item = false -> edit_command a op_lookup item = None.
Proof.
  unfold is_matched, edit_command.
  destruct (secret_of item) as [[login secret]|]; [|reflexivity].
  destruct (find_match _ _ _) as [op_id|]; [|reflexivity].
  simpl. intros ->. reflexivity.
Qed.

Lemma for_each_commands w a op_lookup items :
  dry_run a = false ->
  forall t0 io t io',
    Run.for_each items (process_item w a op_lookup) t0 io = (Ok t, io') ->
    Run.calls io' = Run.calls io ++ omap (edit_command a op_lookup) items.
Proof.
  intros Hdry. induction items as [|item items IH]; intros t0 io t io' E;
    simpl in E.
  - injection E as _ <-. simpl. rewrite app_nil_r. reflexivity.
  - unfold Run.bind in E.
    pose proof (process_item_cases w a op_lookup t0 item io) as H.
    destruct (process_item w a op_lookup t0 item io) as [[t1|e] io1];
      [|discriminate E].
    rewrite (IH _ _ _ _ E). clear IH E. cbn [omap list_omap].
    destruct H as [(Hc & _ & ->) | [(Hor & _ & ->) | [(_ & Hd & _) | [H | H]]]].
    + rewrite unmatched_no_command; [reflexivity|].
      unfold is_matched. unfold carries_secret in Hc.
      destruct (secret_of item) as [[]|]; [discriminate | reflexivity].
    + rewrite unmatched_no_command; [reflexivity|].
      unfold is_orphan in Hor. apply andb_true_iff in Hor as [_ Hnm].
      apply negb_true_iff in Hnm. exact Hnm.
    + congruence.
    + destruct H as (_ & _ & _ & H & _). discriminate H.
    + destruct H as (_ & _ & argv & He & Hcalls & _).
      rewrite (edit_for_command _ _ _ _ He), Hcalls, <- app_assoc. reflexivity.
Qed.

(** X17: a live loop that reaches its end has spawned, in the order of the
    export, the edit of every matched record and nothing else: its command
    log has grown by the list of these commands, one per matched record. *)
Theorem live_loop_commands_in_order (w : world) (a : args)
    (op_lookup : gmap (option string) (list candidate))
    (items : list bw_item) (io : Run.io) (t : tally) (io' : Run.io) :
  dry_run a = false ->
  process_items w a op_lookup items io = (Ok t, io') ->
  Run.calls io' = Run.calls io ++ omap (edit_command a op_lookup) items.
Proof.
  intros Hdry E. exact (for_each_commands w a op_lookup items Hdry tally0 io t io' E).
Qed.

Lemma live_loop_commands_in_order_witness :
  Run.calls
    (snd (process_items (uniform_world 1 "denied" sample_listing [] None)
            live_clear_args (build_lookup sample_listing)
            [BwItem (Some "Mail") (Some (BwLogin None (Some "GEZDGNBV")));
             bob_item; alice_item] io0))
  = Run.calls io0 ++ [op_edit_delete "M1"; op_edit_delete "X1"].
Proof.
  exact (live_loop_commands_in_order
           (uniform_world 1 "denied" sample_listing [] None)
           live_clear_args (build_lookup sample_listing)
           [BwItem (Some "Mail") (Some (BwLogin None (Some "GEZDGNBV")));
            bob_item; alice_item] io0
           (Tally 3 2 0 2 ["Example (User: bob)"])
           (snd (process_items (uniform_world 1 "denied" sample_listing [] None)
                   live_clear_args (build_lookup sample_listing)
                   [BwItem (Some "Mail") (Some (BwLogin None (Some "GEZDGNBV")));
                    bob_item; alice_item] io0))
           eq_refl eq_refl).
Defined.

(** ** Every record with a secret, matched or orphan *)

(** C5, as stated, fails: this run reaches the per-record loop and ends at
    its first record (a matched record without title, whose label [quote]
    refuses); the second record carries a secret and is never discovered:
    no counter moves for it, and it is no orphan. *)
Lemma aborted_loop_leaves_records_uncounted :
  carries_secret alice_item = true
  /\ process_items untitled_world dry_update_args (build_lookup untitled_listing)
       [untitled_item; alice_item] io0
     = (Raise TypeError, io0)
  /\ main untitled_world dry_update_args io0
     = (Raise TypeError,
        Run.Io ["--> Fetching items from 1Password vault: 'Private'...";
                "--> Starting UPDATING (DRY RUN)..."]
               [op_version; op_item_list "Private"]).
Proof. vm_compute. repeat split; reflexivity. Qed.

(** C5 (amended): in every run whose per-record loop runs to its end, each
    source record carrying a secret increments the discovered counter
    exactly once and then contributes to exactly one of: the matched
    counter, as it does when the matcher returns a non-empty identifier, or
    the orphan list (exactly one appended descriptor, no other counter
    change, nothing printed and no command), as it does when the matcher
    returns unmatched; a record can only end the run inside the mutation
    applier. Hence at the end of the loop, and so at the end of [main],
    discovered is the number of records carrying a secret and equals
    matched plus the number of orphans. *)
Theorem each_secret_matched_or_orphan (w : world) (a : args) :
  (forall (op_lookup : gmap (option string) (list candidate))
          t item io login secret,
     secret_of item = Some (login, secret) ->
     match process_item w a op_lookup t item io with
     | (Ok t', io') =>
         found_in_bw t' = found_in_bw t + 1
         /\ ((matched t' = matched t + 1 /\ orphans t' = orphans t)
             \/ (t' = add_orphan (who (bw_name item) (login_username login))
                        (incr_found t)
                 /\ io' = io))
         /\ (forall op_id,
               find_match (bw_name item) (login_username login) op_lookup
               = Some op_id ->
               op_id <> EmptyString ->
               matched t' = matched t + 1 /\ orphans t' = orphans t)
         /\ (find_match (bw_name item) (login_username login) op_lookup = None ->
             t' = add_orphan (who (bw_name item) (login_username login))
                    (incr_found t)
             /\ io' = io)
     | (Raise _, _) =>
         exists op_id,
           find_match (bw_name item) (login_username login) op_lookup = Some op_id
           /\ op_id <> EmptyString
     end)
  /\ (forall (op_lookup : gmap (option string) (list candidate)) items io t io',
        process_items w a op_lookup items io = (Ok t, io') ->
        found_in_bw t = length (List.filter carries_secret items)
        /\ found_in_bw t = matched t + length (orphans t))
  /\ (forall io t io',
        main w a io = (Ok t, io') ->
        found_in_bw t = matched t + length (orphans t)).
Proof.
  assert (Hloop : forall (op_lookup : gmap (option string) (list candidate))
                         items io t io',
             process_items w a op_lookup items io = (Ok t, io') -> balanced t).
  { intros op_lookup items io t io' E.
    apply (for_each_invariant balanced (process_item w a op_lookup)
             (fun acc x io acc' io' =>
                process_item_balanced w a op_lookup acc x io acc' io')
             items tally0 io t io'); [reflexivity | exact E]. }
  split; [|split].
  - intros op_lookup t item io login secret Hs.
    pose proof (process_item_counts w a op_lookup t item io login secret Hs) as H.
    destruct (process_item w a op_lookup t item io) as [[t'|e] io'].
    + destruct H as [Hf H]. split; [exact Hf|].
      destruct (find_match (bw_name item) (login_username login) op_lookup)
        as [op_id|] eqn:Hm; cbn [truthy] in H.
      * destruct op_id as [|c op_id].
        -- cbn in H. split; [right; exact H|]. split; [|discriminate].
           intros op_id' [= <-] Hne. contradiction.
        -- cbn in H. split; [left; exact H|]. split; [|discriminate].
           intros op_id' _ _. exact H.
      * split; [right; exact H|]. split; [discriminate|]. intros _. exact H.
    + apply truthy_Some in H as (op_id & Hm & Hid). exists op_id.
      split; [exact Hm|]. intros ->. discriminate Hid.
  - intros op_lookup items io t io' E. split.
    + destruct (for_each_counts w a op_lookup items tally0 io t io' E) as [Hf _].
      exact Hf.
    + exact (Hloop _ _ _ _ _ E).
  - intros io t io' E.
    destruct (main_tally _ _ _ _ _ E) as (op_lookup & items & io1 & io2 & E').
    exact (Hloop _ _ _ _ _ E').
Qed.

Lemma each_secret_matched_or_orphan_witness :
  match process_item (refusing_world "denied" None) live_clear_args example_index
          tally0 bob_item io0 with
  | (Ok t', io') =>
      found_in_bw t' = 1
      /\ t' = add_orphan "Example (User: bob)" (incr_found tally0) /\ io' = io0
  | (Raise _, _) => False
  end
  /\ match process_item (refusing_world "denied" None) live_clear_args
            example_index tally0 alice_item io0 with
     | (Ok t', io') => matched t' = 1 /\ orphans t' = []
     | (Raise _, _) => False
     end
  /\ found_in_bw (Tally 2 1 0 1 ["Example (User: bob)"])
     = length (List.filter carries_secret
                 [alice_item; BwItem (Some "Skipped") None; bob_item])
  /\ found_in_bw (Tally 2 1 0 1 ["Example (User: bob)"])
     = matched (Tally 2 1 0 1 ["Example (User: bob)"])
       + length (orphans (Tally 2 1 0 1 ["Example (User: bob)"])).
Proof.
  destruct (each_secret_matched_or_orphan (refusing_world "denied" None)
              live_clear_args) as (H1 & H2 & _).
  split; [|split].
  - pose proof (H1 example_index tally0 bob_item io0
                  (BwLogin (Some "bob") (Some "GEZDGNBVGY3TQOJQ")) "GEZDGNBVGY3TQOJQ"
                  eq_refl) as H.
    cbn in H. destruct H as (Hf & _ & _ & Hn). split; [exact Hf|].
    exact (Hn eq_refl).
  - pose proof (H1 example_index tally0 alice_item io0
                  (BwLogin (Some "alice") (Some "JBSWY3DPEHPK3PXP")) "JBSWY3DPEHPK3PXP"
                  eq_refl) as H.
    cbn in H. destruct H as (_ & _ & Hm & _).
    exact (Hm "X1" eq_refl ltac:(discriminate)).
  - exact (H2 example_index
             [alice_item; BwItem (Some "Skipped") None; bob_item] io0
             (Tally 2 1 0 1 ["Example (User: bob)"])
             (snd (process_items (refusing_world "denied" None) live_clear_args
                     example_index
                     [alice_item; BwItem (Some "Skipped") None; bob_item] io0))
             eq_refl).
Defined.
